(** * MDBExtensionController: command dispatch, first-run gate and teardown

    A shallow embedding of [src/mdbExtensionController.ts].  The controller is
    glue between the editor host and a set of collaborators (connection
    controller, explorer, playground controller, storage, telemetry,
    clipboard, notifications).  Every collaborator call the controller makes
    is recorded in a chronological log, so that statements such as
    "refresh() is invoked exactly once" or "telemetry is emitted before the
    handler runs" become statements about that log. *)

From Stdlib Require Import Ascii String.
From stdpp Require Import gmap strings list pretty.

Open Scope string_scope.
Open Scope list_scope.

(** ** JavaScript values reaching the handlers *)

(** A tree item handed over by the host: a reference identity and its
    string-valued data properties ([connectionId], [databaseName], ...). *)
Record TreeItem := mkTreeItem {
  ref : nat;
  props : gmap string string
}.

Inductive value :=
| VUndefined
| VNull
| VBool (b : bool)
| VNum (n : nat)
| VStr (s : string)
| VItem (t : TreeItem).

Definition prop_value (t : TreeItem) (name : string) : value :=
  match props t !! name with
  | Some s => VStr s
  | None => VUndefined
  end.
#[global] Arguments prop_value : simpl never.

(** [!!v] *)
Definition truthy (v : value) : bool :=
  match v with
  | VUndefined | VNull => false
  | VBool b => b
  | VNum n => negb (Nat.eqb n 0)
  | VStr s => negb (String.eqb s "")
  | VItem _ => true
  end.

(** [a === b]: primitives by value, objects by reference. *)
Definition strict_eq (a b : value) : bool :=
  match a, b with
  | VUndefined, VUndefined => true
  | VNull, VNull => true
  | VBool x, VBool y => Bool.eqb x y
  | VNum x, VNum y => Nat.eqb x y
  | VStr x, VStr y => String.eqb x y
  | VItem x, VItem y => Nat.eqb (ref x) (ref y)
  | _, _ => false
  end.

(** Template-literal conversion [`${v}`]. *)
Definition to_string (v : value) : string :=
  match v with
  | VUndefined => "undefined"
  | VNull => "null"
  | VBool true => "true"
  | VBool false => "false"
  | VNum n => pretty n
  | VStr s => s
  | VItem _ => "[object Object]"
  end.

(** ** Faults and outcomes *)

Inductive fault :=
| TypeError (what : string)      (* dereferencing undefined/null in a handler *)
| Rejection (reason : string).   (* an awaited collaborator promise rejected *)

Inductive outcome (A : Type) :=
| Resolved (a : A)
| Failed (f : fault).
Arguments Resolved {A} a.
Arguments Failed {A} f.

(** ** Collaborator operations *)

(** Identifiers of [EXTENSION_COMMANDS] (declared in [./commands], whose string
    values are not needed: the controller only passes the members around). *)
Inductive EXTENSION_COMMANDS :=
| MDB_OPEN_OVERVIEW_PAGE | MDB_CONNECT | MDB_CONNECT_WITH_URI | MDB_DISCONNECT
| MDB_REMOVE_CONNECTION | MDB_CHANGE_ACTIVE_CONNECTION
| MDB_OPEN_MDB_SHELL | MDB_OPEN_MDB_SHELL_FROM_TREE_VIEW
| MDB_CREATE_PLAYGROUND | MDB_CREATE_PLAYGROUND_FROM_OVERVIEW_PAGE
| MDB_RUN_SELECTED_PLAYGROUND_BLOCKS | MDB_RUN_ALL_PLAYGROUND_BLOCKS
| MDB_RUN_ALL_OR_SELECTED_PLAYGROUND_BLOCKS | MDB_REFRESH_PLAYGROUNDS
| MDB_EXPORT_TO_PYTHON | MDB_EXPORT_TO_JAVA | MDB_EXPORT_TO_CSHARP
| MDB_EXPORT_TO_NODE | MDB_EXPORT_TO_RUBY | MDB_CHANGE_EXPORT_TO_LANGUAGE_ADDONS
| MDB_OPEN_MONGODB_DOCUMENT_FROM_CODE_LENS | MDB_SAVE_MONGODB_DOCUMENT
| MDB_CODELENS_SHOW_MORE_DOCUMENTS
| MDB_ADD_CONNECTION | MDB_ADD_CONNECTION_WITH_URI
| MDB_CONNECT_TO_CONNECTION_TREE_VIEW | MDB_DISCONNECT_FROM_CONNECTION_TREE_VIEW
| MDB_REFRESH_CONNECTION | MDB_COPY_CONNECTION_STRING | MDB_SHOW_STREAMS
| MDB_REMOVE_CONNECTION_TREE_VIEW | MDB_RENAME_CONNECTION
| MDB_ADD_DATABASE | MDB_COPY_DATABASE_NAME | MDB_DROP_DATABASE
| MDB_REFRESH_DATABASE | MDB_ADD_COLLECTION | MDB_COPY_COLLECTION_NAME
| MDB_DROP_COLLECTION | MDB_VIEW_COLLECTION_DOCUMENTS | MDB_REFRESH_COLLECTION
| MDB_SEARCH_FOR_DOCUMENTS | MDB_OPEN_MONGODB_DOCUMENT_FROM_TREE
| MDB_REFRESH_DOCUMENT_LIST | MDB_REFRESH_SCHEMA | MDB_COPY_SCHEMA_FIELD_NAME
| MDB_REFRESH_INDEXES | MDB_CREATE_INDEX_TREE_VIEW
| MDB_CREATE_PLAYGROUND_FROM_VIEW_ACTION
| MDB_CREATE_PLAYGROUND_FROM_PLAYGROUND_EXPLORER
| MDB_REFRESH_PLAYGROUNDS_FROM_TREE_VIEW | MDB_OPEN_PLAYGROUND_FROM_TREE_VIEW
| MDB_COPY_DOCUMENT_CONTENTS_FROM_TREE_VIEW | MDB_CLONE_DOCUMENT_FROM_TREE_VIEW
| MDB_DELETE_DOCUMENT_FROM_TREE_VIEW | MDB_INSERT_OBJECTID_TO_EDITOR
| MDB_GENERATE_OBJECTID_TO_CLIPBOARD.

#[global] Instance EXTENSION_COMMANDS_eq_dec : EqDecision EXTENSION_COMMANDS.
Proof. solve_decision. Defined.

(** The components torn down by [deactivate]. *)
Inductive component :=
| ExplorerController | HelpExplorer | PlaygroundsExplorer | PlaygroundController
| TelemetryService | LanguageServerController | EditorsController.

(** Calls the controller issues.  The first group are in-memory actions and
    getters (they return); the second group are asynchronous operations whose
    promise the environment settles either way. *)
Inductive op :=
(* telemetry, notification surface, explorer *)
| TrackCommandRun (command : EXTENSION_COMMANDS)
| TrackDocumentOpenedInEditor (source : value)
| ShowInformationMessage (message : string)
| ShowErrorMessage (message : string)
| ExplorerRefresh
| ResetCache (node : nat)
| ExecuteCommand (command : EXTENSION_COMMANDS)
| Deactivate (c : component)
(* connection controller observers *)
| IsConnecting
| IsDisconnecting
| GetActiveConnectionId
| CopyConnectionStringByConnectionId (connectionId : value)
(* storage *)
| StorageGet (key : string)
| StorageUpdate (key : string) (v : value)
| HasSavedConnections
(* tree view layer *)
| FetchChildren (node : nat)
(* asynchronous collaborator operations *)
| ClipboardWriteText (text : value)
| ItemMethod (node : nat) (method : string)
| CreatePlaygroundForCreateCollection (element : value)
| Disconnect
| External (callee : string) (args : list value).

Inductive event :=
| Called (o : op)
| Settled (o : op) (r : outcome value).

(** ** The world the controller runs in *)

(** Modelled from the spec: the connection controller, the storage controller
    and the tree items are not part of this file.  The spec gives the
    connection state three observers ([isConnecting()], [isDisconnecting()],
    [getActiveConnectionId()]), the storage a durable key/value store with
    read-after-write semantics, and every tree node a cache of children that
    [resetCache] clears and the next expansion refills. *)
Record world := mkWorld {
  log : list event;
  connecting : bool;
  disconnecting : bool;
  activeConnectionId : value;
  storage : gmap string value;
  cache : gmap nat (list string)
}.

(** What the controller cannot decide itself: how awaited promises settle,
    what the remaining getters answer, and what the server currently holds
    under a node.  All may depend on everything that happened so far. *)
Record env := mkEnv {
  settle : world -> op -> outcome value;
  answer : world -> op -> value;
  server_children : world -> nat -> list string
}.

Definition emit (e : event) (w : world) : world :=
  mkWorld (log w ++ [e]) (connecting w) (disconnecting w)
          (activeConnectionId w) (storage w) (cache w).

Definition set_storage (s : gmap string value) (w : world) : world :=
  mkWorld (log w) (connecting w) (disconnecting w)
          (activeConnectionId w) s (cache w).

Definition set_cache (c : gmap nat (list string)) (w : world) : world :=
  mkWorld (log w) (connecting w) (disconnecting w)
          (activeConnectionId w) (storage w) c.

(** State change performed by a call.  Modelled from the spec: [update] of the
    storage writes the key at once, [resetCache] clears the node's cached
    children; the other collaborators keep their state to themselves. *)
Definition effect (o : op) (w : world) : world :=
  match o with
  | StorageUpdate k v => set_storage (<[k := v]> (storage w)) w
  | ResetCache n => set_cache (delete n (cache w)) w
  | _ => w
  end.

(** ** Counting events in a log *)

Definition is_track (c : EXTENSION_COMMANDS) (e : event) : bool :=
  match e with
  | Called (TrackCommandRun c') =>
      bool_decide (c = c')
  | _ => false
  end.

Definition is_information (e : event) : bool :=
  match e with Called (ShowInformationMessage _) => true | _ => false end.

Definition is_advisory (e : event) : bool :=
  match e with Called (ShowErrorMessage _) => true | _ => false end.

Definition is_refresh (e : event) : bool :=
  match e with Called ExplorerRefresh => true | _ => false end.

Definition is_create_playground (e : event) : bool :=
  match e with Called (CreatePlaygroundForCreateCollection _) => true | _ => false end.

Definition is_open_overview (e : event) : bool :=
  match e with Called (ExecuteCommand MDB_OPEN_OVERVIEW_PAGE) => true | _ => false end.

Definition is_flag_update (key : string) (e : event) : bool :=
  match e with
  | Called (StorageUpdate k _) => String.eqb k key
  | _ => false
  end.

Fixpoint count (p : event -> bool) (l : list event) : nat :=
  match l with
  | [] => 0
  | e :: l' => (if p e then 1 else 0) + count p l'
  end.

(** ** The controller *)

Section Controller.

Context (E : env).
(** [StorageVariables.GLOBAL_HAS_BEEN_SHOWN_INITIAL_VIEW], declared in
    [./storage]. *)
Context (GLOBAL_HAS_BEEN_SHOWN_INITIAL_VIEW : string).

(** Computations of the controller: they read and extend the world and either
    resolve with a value or fail. *)
Definition M (A : Type) : Type := world -> outcome A * world.

Definition ret {A} (a : A) : M A := fun w => (Resolved a, w).

Definition throw {A} (f : fault) : M A := fun w => (Failed f, w).

Definition bind {A B} (m : M A) (k : A -> M B) : M B :=
  fun w =>
    match m w with
    | (Resolved a, w') => k a w'
    | (Failed f, w') => (Failed f, w')
    end.

Notation "'let!' x ':=' m 'in' k" := (bind m (fun x => k))
  (at level 10, x name, m at level 100, k at level 200).
Notation "m ';;;' k" := (bind m (fun _ => k))
  (at level 100, k at level 200, right associativity).

(** What a getter returns.  The connection observers and [storage.get] read
    the world; everything else is up to the environment. *)
Definition query (o : op) (w : world) : value :=
  match o with
  | IsConnecting => VBool (connecting w)
  | IsDisconnecting => VBool (disconnecting w)
  | GetActiveConnectionId => activeConnectionId w
  | StorageGet k => default VUndefined (storage w !! k)
  | _ => answer E w o
  end.

(** A plain call [f(...)], also [void f(...)]: the call is made, its state
    change applied, and control returns at once. *)
Definition call (o : op) : M value :=
  fun w => (Resolved (query o w), effect o (emit (Called o) w)).

(** How the promise of [o] settles: that is up to the environment, also for
    the promise of an awaited [resetCache()]. *)
Definition settles (o : op) (w : world) : outcome value :=
  settle E w o.

(** [await f(...)], and [return f(...)] of a promise: the call is made, the
    caller is suspended until the promise settles, and a rejection is
    rethrown in the caller. *)
Definition await (o : op) : M value :=
  fun w =>
    let r := settles o w in
    (r, emit (Settled o r) (effect o (emit (Called o) w))).

(** [v.name]: reading a property of [undefined] or [null] throws, a property
    an object or primitive does not have reads as [undefined]. *)
Definition get_prop (v : value) (name : string) : M value :=
  match v with
  | VUndefined | VNull => throw (TypeError name)
  | VItem t => ret (prop_value t name)
  | _ => ret VUndefined
  end.

(** [v.name()] on a tree item; anything else has no such method. *)
Definition with_item {A} (v : value) (name : string) (k : TreeItem -> M A) : M A :=
  match v with
  | VItem t => k t
  | _ => throw (TypeError name)
  end.

Definition call_method (v : value) (name : string) : M value :=
  with_item v name (fun t => call (ItemMethod (ref t) name)).

Definition await_method (v : value) (name : string) : M value :=
  with_item v name (fun t => await (ItemMethod (ref t) name)).

(** [v.resetCache()] and [await v.resetCache()] *)
Definition resetCache (v : value) : M value :=
  with_item v "resetCache" (fun t => call (ResetCache (ref t))).

Definition await_resetCache (v : value) : M value :=
  with_item v "resetCache" (fun t => await (ResetCache (ref t))).

(** A command handler receives the argument list of its call. *)
Definition handler : Type := list value -> M value.

(** A JavaScript function declared with one parameter binds the first actual
    argument, or [undefined] when there is none. *)
Definition arg0 (args : list value) : value := nth 0 args VUndefined.

(** *** registerCommand *)

Definition commandHandlerWithTelemetry
    (command : EXTENSION_COMMANDS) (commandHandler : handler) : handler :=
  fun hostArgs =>
    let args := arg0 hostArgs in
    call (TrackCommandRun command) ;;;
    commandHandler [args].

(** [this._context.subscriptions] *)
Definition subscriptions : Type := list (EXTENSION_COMMANDS * handler).

Definition registerCommand
    (command : EXTENSION_COMMANDS) (commandHandler : handler)
    (subs : subscriptions) : subscriptions :=
  (subs ++ [(command, commandHandlerWithTelemetry command commandHandler)]).

(** *** Tree view handlers: refresh *)

Definition handle_MDB_REFRESH_CONNECTION : handler := fun args =>
  let connectionTreeItem := arg0 args in
  resetCache connectionTreeItem ;;;
  call ExplorerRefresh ;;;
  ret (VBool true).

Definition handle_MDB_REFRESH_DATABASE : handler := fun args =>
  let databaseTreeItem := arg0 args in
  resetCache databaseTreeItem ;;;
  call ExplorerRefresh ;;;
  ret (VBool true).

Definition handle_MDB_REFRESH_COLLECTION : handler := fun args =>
  let collectionTreeItem := arg0 args in
  resetCache collectionTreeItem ;;;
  call ExplorerRefresh ;;;
  ret (VBool true).

Definition handle_MDB_REFRESH_DOCUMENT_LIST : handler := fun args =>
  let documentsListTreeItem := arg0 args in
  await_resetCache documentsListTreeItem ;;;
  call ExplorerRefresh ;;;
  ret (VBool true).

Definition handle_MDB_REFRESH_SCHEMA : handler := fun args =>
  let schemaTreeItem := arg0 args in
  resetCache schemaTreeItem ;;;
  call ExplorerRefresh ;;;
  ret (VBool true).

Definition handle_MDB_REFRESH_INDEXES : handler := fun args =>
  let indexListTreeItem := arg0 args in
  resetCache indexListTreeItem ;;;
  call ExplorerRefresh ;;;
  ret (VBool true).

(** *** Tree view handlers: clipboard *)

Definition handle_MDB_COPY_CONNECTION_STRING : handler := fun args =>
  let element := arg0 args in
  let! connectionId := get_prop element "connectionId" in
  let! connectionString := call (CopyConnectionStringByConnectionId connectionId) in
  await (ClipboardWriteText connectionString) ;;;
  call (ShowInformationMessage "Copied to clipboard.") ;;;
  ret (VBool true).

Definition handle_MDB_COPY_DATABASE_NAME : handler := fun args =>
  let element := arg0 args in
  let! databaseName := get_prop element "databaseName" in
  await (ClipboardWriteText databaseName) ;;;
  call (ShowInformationMessage "Copied to clipboard.") ;;;
  ret (VBool true).

Definition handle_MDB_COPY_COLLECTION_NAME : handler := fun args =>
  let element := arg0 args in
  let! collectionName := get_prop element "collectionName" in
  await (ClipboardWriteText collectionName) ;;;
  call (ShowInformationMessage "Copied to clipboard.") ;;;
  ret (VBool true).

Definition handle_MDB_COPY_SCHEMA_FIELD_NAME : handler := fun args =>
  let fieldTreeItem := arg0 args in
  let! fieldName := call_method fieldTreeItem "getFieldName" in
  await (ClipboardWriteText fieldName) ;;;
  call (ShowInformationMessage "Copied to clipboard.") ;;;
  ret (VBool true).

Definition handle_MDB_COPY_DOCUMENT_CONTENTS_FROM_TREE_VIEW : handler := fun args =>
  let documentTreeItem := arg0 args in
  let! documentContents :=
    await_method documentTreeItem "getStringifiedEJSONDocumentContents" in
  await (ClipboardWriteText documentContents) ;;;
  call (ShowInformationMessage "Copied to clipboard.") ;;;
  ret (VBool true).

Definition handle_MDB_GENERATE_OBJECTID_TO_CLIPBOARD : handler := fun _ =>
  let! hex := call (External "generateId().toHexString" []) in
  await (ClipboardWriteText hex) ;;;
  call (ShowInformationMessage "Copied to clipboard.") ;;;
  ret (VBool true).

(** *** Tree view handlers: drop and delete *)

Definition handle_MDB_DROP_DATABASE : handler := fun args =>
  let element := arg0 args in
  let! successfullyDroppedDatabase := await_method element "onDropDatabaseClicked" in
  (if truthy successfullyDroppedDatabase then
     call (ShowInformationMessage "Database successfully dropped.") ;;;
     call ExplorerRefresh
   else ret VUndefined) ;;;
  ret successfullyDroppedDatabase.

Definition handle_MDB_DROP_COLLECTION : handler := fun args =>
  let element := arg0 args in
  let! successfullyDroppedCollection :=
    await_method element "onDropCollectionClicked" in
  (if truthy successfullyDroppedCollection then
     call (ShowInformationMessage "Collection successfully dropped.") ;;;
     call ExplorerRefresh
   else ret VUndefined) ;;;
  ret successfullyDroppedCollection.

Definition handle_MDB_DELETE_DOCUMENT_FROM_TREE_VIEW : handler := fun args =>
  let documentTreeItem := arg0 args in
  let! successfullyDropped := await_method documentTreeItem "onDeleteDocumentClicked" in
  (if truthy successfullyDropped then
     call (ShowInformationMessage "Document successfully deleted.") ;;;
     call ExplorerRefresh
   else ret VUndefined) ;;;
  ret successfullyDropped.

(** *** Tree view handlers: add database, add collection *)

Definition handle_MDB_ADD_DATABASE : handler := fun args =>
  let element := arg0 args in
  if negb (truthy element) then
    call (ShowErrorMessage
      "Please wait for the connection to finish loading before adding a database.") ;;;
    ret (VBool false)
  else
    let! connectionId := get_prop element "connectionId" in
    let! activeId := call GetActiveConnectionId in
    if negb (strict_eq connectionId activeId) then
      call (ShowErrorMessage
        "Please connect to this connection before adding a database.") ;;;
      ret (VBool false)
    else
      let! isDisconnecting := call IsDisconnecting in
      if truthy isDisconnecting then
        call (ShowErrorMessage "Unable to add database: currently disconnecting.") ;;;
        ret (VBool false)
      else
        let! isConnecting := call IsConnecting in
        if truthy isConnecting then
          call (ShowErrorMessage "Unable to add database: currently connecting.") ;;;
          ret (VBool false)
        else
          await (CreatePlaygroundForCreateCollection element).

Definition handle_MDB_ADD_COLLECTION : handler := fun args =>
  let element := arg0 args in
  let! isDisconnecting := call IsDisconnecting in
  if truthy isDisconnecting then
    call (ShowErrorMessage "Unable to add collection: currently disconnecting.") ;;;
    ret (VBool false)
  else
    await (CreatePlaygroundForCreateCollection element).

(** *** Remaining tree view handlers *)

Definition handle_MDB_ADD_CONNECTION : handler := fun _ =>
  await (External "webviewController.openWebview" []).

Definition handle_MDB_ADD_CONNECTION_WITH_URI : handler := fun _ =>
  await (External "connectionController.connectWithURI" []).

Definition handle_MDB_CONNECT_TO_CONNECTION_TREE_VIEW : handler := fun args =>
  let connectionTreeItem := arg0 args in
  let! connectionId := get_prop connectionTreeItem "connectionId" in
  await (External "connectionController.connectWithConnectionId" [connectionId]).

Definition handle_MDB_DISCONNECT_FROM_CONNECTION_TREE_VIEW : handler := fun _ =>
  await Disconnect.

(** The illustrative stream graph of [MDB_SHOW_STREAMS]: node, parent, status. *)
Definition nodeParent : list (string * (string * string)) :=
  [ ("streamA", ("", "RUNNING"));
    ("streamB", ("streamA", "RUNNING"));
    ("streamC", ("streamA", "STOPPED"));
    ("streamD", ("streamB", "STOPPED"));
    ("streamE", ("streamB", "RUNNING"));
    ("streamF", ("streamB", "RUNNING"));
    ("streamG", ("streamB", "RUNNING"));
    ("streamH", ("streamB", "RUNNING"));
    ("streamI", ("streamB", "RUNNING")) ].

Definition status_of (node : string) : string :=
  match List.find (fun e => String.eqb (fst e) node) nodeParent with
  | Some (_, (_, status)) => status
  | None => "undefined"
  end.

Definition newline : string := String (Ascii.ascii_of_nat 10) "".

Definition streams_content : string :=
  fold_left
    (fun content e =>
       let node := fst e in
       let parent := fst (snd e) in
       let status := snd (snd e) in
       if String.eqb parent "" then content
       else content +:+ parent +:+ "(" +:+ parent +:+ " : " +:+ status_of parent
              +:+ ") -->" +:+ node +:+ "(" +:+ node +:+ " : " +:+ status +:+ ")" +:+ newline)
    nodeParent ("graph TD" +:+ newline).

(** The HTML page around the graph is a fixed template; only the graph text
    it embeds is kept. *)
Definition handle_MDB_SHOW_STREAMS : handler := fun _ =>
  call (External "vscode.window.createWebviewPanel"
          [VStr "Mermaid Graph"; VStr "Show Streams"]) ;;;
  call (External "mermaid.initialize" []) ;;;
  call (External "panel.webview.html" [VStr streams_content]) ;;;
  ret (VBool true).

Definition handle_MDB_REMOVE_CONNECTION_TREE_VIEW : handler := fun args =>
  let element := arg0 args in
  let! connectionId := get_prop element "connectionId" in
  await (External "connectionController.removeMongoDBConnection" [connectionId]).

Definition handle_MDB_RENAME_CONNECTION : handler := fun args =>
  let element := arg0 args in
  let! connectionId := get_prop element "connectionId" in
  await (External "connectionController.renameConnection" [connectionId]).

Definition handle_MDB_VIEW_COLLECTION_DOCUMENTS : handler := fun args =>
  let element := arg0 args in
  let! databaseName := get_prop element "databaseName" in
  let! collectionName := get_prop element "collectionName" in
  let namespace := to_string databaseName +:+ "." +:+ to_string collectionName in
  await (External "editorsController.onViewCollectionDocuments" [VStr namespace]).

Definition handle_MDB_SEARCH_FOR_DOCUMENTS : handler := fun args =>
  let element := arg0 args in
  let! databaseName := get_prop element "databaseName" in
  let! collectionName := get_prop element "collectionName" in
  await (External "playgroundController.createPlaygroundForSearch"
           [databaseName; collectionName]).

Definition handle_MDB_OPEN_MONGODB_DOCUMENT_FROM_TREE : handler := fun args =>
  let element := arg0 args in
  let! documentId := get_prop element "documentId" in
  let! namespace := get_prop element "namespace" in
  let! connectionId := call GetActiveConnectionId in
  await (External "editorsController.openMongoDBDocument"
           [VStr "DOCUMENT_SOURCE_TREEVIEW"; documentId; namespace; connectionId; VNum 1]).

Definition handle_MDB_CREATE_INDEX_TREE_VIEW : handler := fun args =>
  let indexListTreeItem := arg0 args in
  let! databaseName := get_prop indexListTreeItem "databaseName" in
  let! collectionName := get_prop indexListTreeItem "collectionName" in
  await (External "playgroundController.createPlaygroundForNewIndex"
           [databaseName; collectionName]).

Definition handle_createPlayground : handler := fun _ =>
  await (External "playgroundController.createPlayground" []).

Definition handle_refreshPlaygrounds : handler := fun _ =>
  await (External "playgroundsExplorer.refresh" []).

Definition handle_MDB_OPEN_PLAYGROUND_FROM_TREE_VIEW : handler := fun args =>
  let playgroundsTreeItem := arg0 args in
  let! filePath := get_prop playgroundsTreeItem "filePath" in
  await (External "playgroundController.openPlayground" [filePath]).

(** [namespace.split] at the first dot, keeping the remainder as one piece:
    everything before the first dot, and everything after it when there is
    one. *)
Fixpoint split_namespace (s : string) : string * option string :=
  match s with
  | EmptyString => (EmptyString, None)
  | String c s' =>
      if Ascii.eqb c "."%char then (EmptyString, Some s')
      else let r := split_namespace s' in (String c (fst r), snd r)
  end.

Definition handle_MDB_CLONE_DOCUMENT_FROM_TREE_VIEW : handler := fun args =>
  let documentTreeItem := arg0 args in
  let! documentContents :=
    await_method documentTreeItem "getJSStringDocumentContents" in
  let! namespace := get_prop documentTreeItem "namespace" in
  match namespace with
  | VStr ns =>
      let databaseName := fst (split_namespace ns) in
      let collectionName :=
        match snd (split_namespace ns) with
        | Some c => VStr c
        | None => VUndefined
        end in
      await (External "playgroundController.createPlaygroundForCloneDocument"
               [documentContents; VStr databaseName; collectionName])
  | _ => throw (TypeError "split")
  end.

(** [editor.edit] runs its callback, which replaces every selection by a
    fresh object id, inside the host; the handler only awaits the promise. *)
Definition handle_MDB_INSERT_OBJECTID_TO_EDITOR : handler := fun _ =>
  let! editor := call (External "vscode.window.activeTextEditor" []) in
  if negb (truthy editor) then
    call (ShowInformationMessage "No active editor to insert to.") ;;;
    ret (VBool false)
  else
    call (External "createIdFactory" []) ;;;
    await (External "editor.edit" []) ;;;
    ret (VBool true).

Definition registerTreeViewCommands (subs : subscriptions) : subscriptions :=
  let subs := registerCommand MDB_ADD_CONNECTION handle_MDB_ADD_CONNECTION subs in
  let subs := registerCommand MDB_ADD_CONNECTION_WITH_URI
                handle_MDB_ADD_CONNECTION_WITH_URI subs in
  let subs := registerCommand MDB_CONNECT_TO_CONNECTION_TREE_VIEW
                handle_MDB_CONNECT_TO_CONNECTION_TREE_VIEW subs in
  let subs := registerCommand MDB_DISCONNECT_FROM_CONNECTION_TREE_VIEW
                handle_MDB_DISCONNECT_FROM_CONNECTION_TREE_VIEW subs in
  let subs := registerCommand MDB_REFRESH_CONNECTION handle_MDB_REFRESH_CONNECTION subs in
  let subs := registerCommand MDB_COPY_CONNECTION_STRING
                handle_MDB_COPY_CONNECTION_STRING subs in
  let subs := registerCommand MDB_SHOW_STREAMS handle_MDB_SHOW_STREAMS subs in
  let subs := registerCommand MDB_REMOVE_CONNECTION_TREE_VIEW
                handle_MDB_REMOVE_CONNECTION_TREE_VIEW subs in
  let subs := registerCommand MDB_RENAME_CONNECTION handle_MDB_RENAME_CONNECTION subs in
  let subs := registerCommand MDB_ADD_DATABASE handle_MDB_ADD_DATABASE subs in
  let subs := registerCommand MDB_COPY_DATABASE_NAME handle_MDB_COPY_DATABASE_NAME subs in
  let subs := registerCommand MDB_DROP_DATABASE handle_MDB_DROP_DATABASE subs in
  let subs := registerCommand MDB_REFRESH_DATABASE handle_MDB_REFRESH_DATABASE subs in
  let subs := registerCommand MDB_ADD_COLLECTION handle_MDB_ADD_COLLECTION subs in
  let subs := registerCommand MDB_COPY_COLLECTION_NAME
                handle_MDB_COPY_COLLECTION_NAME subs in
  let subs := registerCommand MDB_DROP_COLLECTION handle_MDB_DROP_COLLECTION subs in
  let subs := registerCommand MDB_VIEW_COLLECTION_DOCUMENTS
                handle_MDB_VIEW_COLLECTION_DOCUMENTS subs in
  let subs := registerCommand MDB_REFRESH_COLLECTION handle_MDB_REFRESH_COLLECTION subs in
  let subs := registerCommand MDB_SEARCH_FOR_DOCUMENTS
                handle_MDB_SEARCH_FOR_DOCUMENTS subs in
  let subs := registerCommand MDB_OPEN_MONGODB_DOCUMENT_FROM_TREE
                handle_MDB_OPEN_MONGODB_DOCUMENT_FROM_TREE subs in
  let subs := registerCommand MDB_REFRESH_DOCUMENT_LIST
                handle_MDB_REFRESH_DOCUMENT_LIST subs in
  let subs := registerCommand MDB_REFRESH_SCHEMA handle_MDB_REFRESH_SCHEMA subs in
  let subs := registerCommand MDB_COPY_SCHEMA_FIELD_NAME
                handle_MDB_COPY_SCHEMA_FIELD_NAME subs in
  let subs := registerCommand MDB_REFRESH_INDEXES handle_MDB_REFRESH_INDEXES subs in
  let subs := registerCommand MDB_CREATE_INDEX_TREE_VIEW
                handle_MDB_CREATE_INDEX_TREE_VIEW subs in
  let subs := registerCommand MDB_CREATE_PLAYGROUND_FROM_VIEW_ACTION
                handle_createPlayground subs in
  let subs := registerCommand MDB_CREATE_PLAYGROUND_FROM_PLAYGROUND_EXPLORER
                handle_createPlayground subs in
  let subs := registerCommand MDB_REFRESH_PLAYGROUNDS_FROM_TREE_VIEW
                handle_refreshPlaygrounds subs in
  let subs := registerCommand MDB_OPEN_PLAYGROUND_FROM_TREE_VIEW
                handle_MDB_OPEN_PLAYGROUND_FROM_TREE_VIEW subs in
  let subs := registerCommand MDB_COPY_DOCUMENT_CONTENTS_FROM_TREE_VIEW
                handle_MDB_COPY_DOCUMENT_CONTENTS_FROM_TREE_VIEW subs in
  let subs := registerCommand MDB_CLONE_DOCUMENT_FROM_TREE_VIEW
                handle_MDB_CLONE_DOCUMENT_FROM_TREE_VIEW subs in
  let subs := registerCommand MDB_DELETE_DOCUMENT_FROM_TREE_VIEW
                handle_MDB_DELETE_DOCUMENT_FROM_TREE_VIEW subs in
  let subs := registerCommand MDB_INSERT_OBJECTID_TO_EDITOR
                handle_MDB_INSERT_OBJECTID_TO_EDITOR subs in
  registerCommand MDB_GENERATE_OBJECTID_TO_CLIPBOARD
    handle_MDB_GENERATE_OBJECTID_TO_CLIPBOARD subs.

(** *** Editor commands and the commands of [registerCommands] *)

Definition handle_MDB_CODELENS_SHOW_MORE_DOCUMENTS : handler := fun args =>
  let data := arg0 args in
  let! operationId := get_prop data "operationId" in
  let! connectionId := get_prop data "connectionId" in
  let! namespace := get_prop data "namespace" in
  await (External "editorsController.onViewMoreCollectionDocuments"
           [operationId; connectionId; namespace]).

Definition registerEditorCommands (subs : subscriptions) : subscriptions :=
  registerCommand MDB_CODELENS_SHOW_MORE_DOCUMENTS
    handle_MDB_CODELENS_SHOW_MORE_DOCUMENTS subs.

Definition handle_external (callee : string) (args : list value) : handler :=
  fun _ => await (External callee args).

Definition handle_MDB_CHANGE_EXPORT_TO_LANGUAGE_ADDONS : handler := fun args =>
  let exportToLanguageAddons := arg0 args in
  await (External "playgroundController.changeExportToLanguageAddons"
           [exportToLanguageAddons]).

Definition handle_MDB_OPEN_MONGODB_DOCUMENT_FROM_CODE_LENS : handler := fun args =>
  let data := arg0 args in
  let! source := get_prop data "source" in
  call (TrackDocumentOpenedInEditor source) ;;;
  await (External "editorsController.openMongoDBDocument" [data]).

Definition registerCommands (subs : subscriptions) : subscriptions :=
  let openWebview := handle_external "webviewController.openWebview" [] in
  let launchMongoShell := handle_external "launchMongoShell" [] in
  let exportToLanguage l :=
    handle_external "playgroundController.exportToLanguage" [VStr l] in
  let subs := registerCommand MDB_OPEN_OVERVIEW_PAGE openWebview subs in
  let subs := registerCommand MDB_CONNECT openWebview subs in
  let subs := registerCommand MDB_CONNECT_WITH_URI
                (handle_external "connectionController.connectWithURI" []) subs in
  let subs := registerCommand MDB_DISCONNECT (fun _ => await Disconnect) subs in
  let subs := registerCommand MDB_REMOVE_CONNECTION
                (handle_external "connectionController.onRemoveMongoDBConnection" [])
                subs in
  let subs := registerCommand MDB_CHANGE_ACTIVE_CONNECTION
                (handle_external "connectionController.changeActiveConnection" [])
                subs in
  let subs := registerCommand MDB_OPEN_MDB_SHELL launchMongoShell subs in
  let subs := registerCommand MDB_OPEN_MDB_SHELL_FROM_TREE_VIEW launchMongoShell subs in
  let subs := registerCommand MDB_CREATE_PLAYGROUND handle_createPlayground subs in
  let subs := registerCommand MDB_CREATE_PLAYGROUND_FROM_OVERVIEW_PAGE
                handle_createPlayground subs in
  let subs := registerCommand MDB_RUN_SELECTED_PLAYGROUND_BLOCKS
                (handle_external "playgroundController.runSelectedPlaygroundBlocks" [])
                subs in
  let subs := registerCommand MDB_RUN_ALL_PLAYGROUND_BLOCKS
                (handle_external "playgroundController.runAllPlaygroundBlocks" [])
                subs in
  let subs := registerCommand MDB_RUN_ALL_OR_SELECTED_PLAYGROUND_BLOCKS
                (handle_external
                   "playgroundController.runAllOrSelectedPlaygroundBlocks" [])
                subs in
  let subs := registerCommand MDB_REFRESH_PLAYGROUNDS handle_refreshPlaygrounds subs in
  let subs := registerCommand MDB_EXPORT_TO_PYTHON (exportToLanguage "PYTHON") subs in
  let subs := registerCommand MDB_EXPORT_TO_JAVA (exportToLanguage "JAVA") subs in
  let subs := registerCommand MDB_EXPORT_TO_CSHARP (exportToLanguage "CSHARP") subs in
  let subs := registerCommand MDB_EXPORT_TO_NODE (exportToLanguage "JAVASCRIPT") subs in
  let subs := registerCommand MDB_EXPORT_TO_RUBY (exportToLanguage "RUBY") subs in
  let subs := registerCommand MDB_CHANGE_EXPORT_TO_LANGUAGE_ADDONS
                handle_MDB_CHANGE_EXPORT_TO_LANGUAGE_ADDONS subs in
  let subs := registerCommand MDB_OPEN_MONGODB_DOCUMENT_FROM_CODE_LENS
                handle_MDB_OPEN_MONGODB_DOCUMENT_FROM_CODE_LENS subs in
  let subs := registerCommand MDB_SAVE_MONGODB_DOCUMENT
                (handle_external "editorsController.saveMongoDBDocument" []) subs in
  let subs := registerEditorCommands subs in
  registerTreeViewCommands subs.

(** The host runs the handler bound to a command with the arguments it was
    given; an unknown command is rejected. *)
Definition executeCommand
    (subs : subscriptions) (command : EXTENSION_COMMANDS) (hostArgs : list value)
    : M value :=
  match List.find (fun b => bool_decide (fst b = command)) subs with
  | Some (_, h) => h hostArgs
  | None => throw (Rejection "command not found")
  end.

(** *** First-run gate *)

Definition showOverviewPageIfRecentlyInstalled : M value :=
  let! stored := call (StorageGet GLOBAL_HAS_BEEN_SHOWN_INITIAL_VIEW) in
  let hasBeenShownViewAlready := truthy stored in
  if negb hasBeenShownViewAlready then
    let! hasSavedConnections := call HasSavedConnections in
    (if negb (truthy hasSavedConnections) then
       call (ExecuteCommand MDB_OPEN_OVERVIEW_PAGE)
     else ret VUndefined) ;;;
    call (StorageUpdate GLOBAL_HAS_BEEN_SHOWN_INITIAL_VIEW (VBool true))
  else ret VUndefined.

(** *** Activation *)

(** The part of [activate] that precedes the registration of commands. *)
Definition startup : M value :=
  call (External "explorerController.activateConnectionsTreeView" []) ;;;
  call (External "helpExplorer.activateHelpTreeView" []) ;;;
  call (External "playgroundsExplorer.activatePlaygroundsTreeView" []) ;;;
  call (External "telemetryService.activateSegmentAnalytics" []) ;;;
  await (External "connectionController.loadSavedConnections" []) ;;;
  await (External "languageServerController.startLanguageServer" []).

Definition activate (subs : subscriptions) : M subscriptions :=
  startup ;;;
  let subs := registerCommands subs in
  showOverviewPageIfRecentlyInstalled ;;;
  ret subs.

(** *** Teardown *)

Definition deactivate : M value :=
  await Disconnect ;;;
  call (Deactivate ExplorerController) ;;;
  call (Deactivate HelpExplorer) ;;;
  call (Deactivate PlaygroundsExplorer) ;;;
  call (Deactivate PlaygroundController) ;;;
  call (Deactivate TelemetryService) ;;;
  call (Deactivate LanguageServerController) ;;;
  call (Deactivate EditorsController) ;;;
  ret VUndefined.

Definition dispose : M value :=
  deactivate ;;;
  ret VUndefined.

(** *** The life of the extension *)

(** The host activates the extension, runs its commands, and disposes of it,
    any number of times and in any order (also orders no host produces, such
    as a command before the first activation); storage outlives all of it. *)
Inductive step :=
| Activate
| Execute (command : EXTENSION_COMMANDS) (hostArgs : list value)
| Dispose.

Definition run_step (s : step) (w : world) : world :=
  match s with
  | Activate => snd (activate [] w)
  | Execute command hostArgs =>
      snd (executeCommand (registerCommands []) command hostArgs w)
  | Dispose => snd (dispose w)
  end.

Definition session (steps : list step) (w : world) : world :=
  fold_left (fun w s => run_step s w) steps w.

(** *** Tree expansion *)


End Controller.

(** ** Reading the result of a run *)

(** The events a run appended to the log. *)
Definition new_events (w w' : world) : list event :=
  drop (length (log w)) (log w').

(** The drop and delete commands of the tree view: command, handler, the
    tree item method performing the mutation, and the confirmation shown. *)
Definition mutating_tree_commands
    : list (EXTENSION_COMMANDS * (env -> handler)
            * string * string) :=
  [ (MDB_DROP_DATABASE, handle_MDB_DROP_DATABASE,
     "onDropDatabaseClicked", "Database successfully dropped.");
    (MDB_DROP_COLLECTION, handle_MDB_DROP_COLLECTION,
     "onDropCollectionClicked", "Collection successfully dropped.");
    (MDB_DELETE_DOCUMENT_FROM_TREE_VIEW, handle_MDB_DELETE_DOCUMENT_FROM_TREE_VIEW,
     "onDeleteDocumentClicked", "Document successfully deleted.") ].

(** The refresh commands of the tree view: command, handler, and whether the
    handler awaits [resetCache()]. *)
Definition refresh_tree_commands
    : list (EXTENSION_COMMANDS * (env -> handler)
            * bool) :=
  [ (MDB_REFRESH_CONNECTION, handle_MDB_REFRESH_CONNECTION, false);
    (MDB_REFRESH_DATABASE, handle_MDB_REFRESH_DATABASE, false);
    (MDB_REFRESH_COLLECTION, handle_MDB_REFRESH_COLLECTION, false);
    (MDB_REFRESH_DOCUMENT_LIST, handle_MDB_REFRESH_DOCUMENT_LIST, true);
    (MDB_REFRESH_SCHEMA, handle_MDB_REFRESH_SCHEMA, false);
    (MDB_REFRESH_INDEXES, handle_MDB_REFRESH_INDEXES, false) ].

(** The clipboard commands of the tree view. *)
Definition copy_tree_commands
    : list (EXTENSION_COMMANDS * (env -> handler)) :=
  [ (MDB_COPY_CONNECTION_STRING, handle_MDB_COPY_CONNECTION_STRING);
    (MDB_COPY_DATABASE_NAME, handle_MDB_COPY_DATABASE_NAME);
    (MDB_COPY_COLLECTION_NAME, handle_MDB_COPY_COLLECTION_NAME);
    (MDB_COPY_SCHEMA_FIELD_NAME, handle_MDB_COPY_SCHEMA_FIELD_NAME);
    (MDB_COPY_DOCUMENT_CONTENTS_FROM_TREE_VIEW,
     handle_MDB_COPY_DOCUMENT_CONTENTS_FROM_TREE_VIEW);
    (MDB_GENERATE_OBJECTID_TO_CLIPBOARD, handle_MDB_GENERATE_OBJECTID_TO_CLIPBOARD) ].





(** Calls only [registerCommand]'s wrapper and the first-run gate make:
    reporting a command run, running a command, writing the storage. *)
Definition is_reserved (e : event) : bool :=
  match e with
  | Called (TrackCommandRun _) | Called (ExecuteCommand _)
  | Called (StorageUpdate _ _) => true
  | _ => false
  end.

(** [m] only appends to the log, makes none of the reserved calls and leaves
    the storage as it is. *)
Definition quiet {A} (m : world -> outcome A * world) : Prop :=
  forall w, exists evs,
    log (snd (m w)) = log w ++ evs /\
    count is_reserved evs = 0 /\
    storage (snd (m w)) = storage w.


(** An environment in which no promise rejects. *)
Definition never_rejects (E : env) : Prop :=
  forall w o, exists v, settle E w o = Resolved v.

(** [element.connectionId] for an [element] that is not [undefined] or [null]. *)
Definition connectionId_of (element : value) : value :=
  match element with
  | VItem t => prop_value t "connectionId"
  | _ => VUndefined
  end.

(** Tree view commands whose handler uses its tree item without looking
    whether there is one. *)
Definition commands_needing_tree_item : list EXTENSION_COMMANDS :=
  [ MDB_DROP_DATABASE; MDB_COPY_DATABASE_NAME; MDB_DROP_COLLECTION;
    MDB_DELETE_DOCUMENT_FROM_TREE_VIEW ].

(** A handler of two parameters, [(a, b) => Promise.resolve(!!b)], as
    [registerCommand]'s type [(...args: any[]) => Promise<boolean>] allows. *)
Definition second_argument_handler : handler :=
  fun args => ret (VBool (truthy (nth 1 args VUndefined))).

(** Whether the flag of the first-run gate reads as shown. *)
Definition shown (key : string) (w : world) : bool :=
  truthy (default VUndefined (storage w !! key)).

(** The number of times the flag went from not shown to shown between two
    worlds in which it never goes back. *)
Definition transitions (key : string) (w w' : world) : nat :=
  if shown key w then 0 else if shown key w' then 1 else 0.

(** ** Sample worlds and environments *)

Definition idle_world : world :=
  mkWorld [] false false VNull ∅ ∅.

(** Connected to [conn-1]. *)
Definition connected_world : world :=
  mkWorld [] false false (VStr "conn-1") ∅ ∅.

(** In the middle of connecting to another connection, [conn-1] still active. *)
Definition connecting_world : world :=
  mkWorld [] true false (VStr "conn-1") ∅ ∅.

Definition sample_database : TreeItem :=
  mkTreeItem 7 {[ "databaseName" := "shop" ]}.

Definition sample_connection : TreeItem :=
  mkTreeItem 3 {[ "connectionId" := "conn-1" ]}.

(** Every promise resolves to [true]; every getter answers a fixed string. *)
Definition env_success : env :=
  mkEnv (fun _ _ => Resolved (VBool true)) (fun _ _ => VStr "text") (fun _ _ => ["orders"]).

(** Every promise resolves to [false]. *)
Definition env_failure : env :=
  mkEnv (fun _ _ => Resolved (VBool false)) (fun _ _ => VStr "text") (fun _ _ => ["orders"]).

(** Every promise rejects. *)
Definition env_rejecting : env :=
  mkEnv (fun _ _ => Failed (Rejection "unreachable")) (fun _ _ => VStr "text")
        (fun _ _ => []).

(** A fresh install: no promise rejects, no saved connections. *)
Definition env_fresh : env :=
  mkEnv (fun _ _ => Resolved (VBool true)) (fun _ _ => VBool false) (fun _ _ => []).

(** ** Further readings of the log and of the registry *)

(** The handlers as they are passed to [registerCommand], in the order of
    [registerCommands]. *)
Definition registered_handlers : list (EXTENSION_COMMANDS * (env -> handler)) :=
  [ (MDB_OPEN_OVERVIEW_PAGE, fun E => handle_external E "webviewController.openWebview" []);
    (MDB_CONNECT, fun E => handle_external E "webviewController.openWebview" []);
    (MDB_CONNECT_WITH_URI,
     fun E => handle_external E "connectionController.connectWithURI" []);
    (MDB_DISCONNECT, fun E _ => await E Disconnect);
    (MDB_REMOVE_CONNECTION,
     fun E => handle_external E "connectionController.onRemoveMongoDBConnection" []);
    (MDB_CHANGE_ACTIVE_CONNECTION,
     fun E => handle_external E "connectionController.changeActiveConnection" []);
    (MDB_OPEN_MDB_SHELL, fun E => handle_external E "launchMongoShell" []);
    (MDB_OPEN_MDB_SHELL_FROM_TREE_VIEW, fun E => handle_external E "launchMongoShell" []);
    (MDB_CREATE_PLAYGROUND, handle_createPlayground);
    (MDB_CREATE_PLAYGROUND_FROM_OVERVIEW_PAGE, handle_createPlayground);
    (MDB_RUN_SELECTED_PLAYGROUND_BLOCKS,
     fun E => handle_external E "playgroundController.runSelectedPlaygroundBlocks" []);
    (MDB_RUN_ALL_PLAYGROUND_BLOCKS,
     fun E => handle_external E "playgroundController.runAllPlaygroundBlocks" []);
    (MDB_RUN_ALL_OR_SELECTED_PLAYGROUND_BLOCKS,
     fun E => handle_external E "playgroundController.runAllOrSelectedPlaygroundBlocks" []);
    (MDB_REFRESH_PLAYGROUNDS, handle_refreshPlaygrounds);
    (MDB_EXPORT_TO_PYTHON,
     fun E => handle_external E "playgroundController.exportToLanguage" [VStr "PYTHON"]);
    (MDB_EXPORT_TO_JAVA,
     fun E => handle_external E "playgroundController.exportToLanguage" [VStr "JAVA"]);
    (MDB_EXPORT_TO_CSHARP,
     fun E => handle_external E "playgroundController.exportToLanguage" [VStr "CSHARP"]);
    (MDB_EXPORT_TO_NODE,
     fun E => handle_external E "playgroundController.exportToLanguage" [VStr "JAVASCRIPT"]);
    (MDB_EXPORT_TO_RUBY,
     fun E => handle_external E "playgroundController.exportToLanguage" [VStr "RUBY"]);
    (MDB_CHANGE_EXPORT_TO_LANGUAGE_ADDONS, handle_MDB_CHANGE_EXPORT_TO_LANGUAGE_ADDONS);
    (MDB_OPEN_MONGODB_DOCUMENT_FROM_CODE_LENS,
     handle_MDB_OPEN_MONGODB_DOCUMENT_FROM_CODE_LENS);
    (MDB_SAVE_MONGODB_DOCUMENT,
     fun E => handle_external E "editorsController.saveMongoDBDocument" []);
    (MDB_CODELENS_SHOW_MORE_DOCUMENTS, handle_MDB_CODELENS_SHOW_MORE_DOCUMENTS);
    (MDB_ADD_CONNECTION, handle_MDB_ADD_CONNECTION);
    (MDB_ADD_CONNECTION_WITH_URI, handle_MDB_ADD_CONNECTION_WITH_URI);
    (MDB_CONNECT_TO_CONNECTION_TREE_VIEW, handle_MDB_CONNECT_TO_CONNECTION_TREE_VIEW);
    (MDB_DISCONNECT_FROM_CONNECTION_TREE_VIEW,
     handle_MDB_DISCONNECT_FROM_CONNECTION_TREE_VIEW);
    (MDB_REFRESH_CONNECTION, handle_MDB_REFRESH_CONNECTION);
    (MDB_COPY_CONNECTION_STRING, handle_MDB_COPY_CONNECTION_STRING);
    (MDB_SHOW_STREAMS, handle_MDB_SHOW_STREAMS);
    (MDB_REMOVE_CONNECTION_TREE_VIEW, handle_MDB_REMOVE_CONNECTION_TREE_VIEW);
    (MDB_RENAME_CONNECTION, handle_MDB_RENAME_CONNECTION);
    (MDB_ADD_DATABASE, handle_MDB_ADD_DATABASE);
    (MDB_COPY_DATABASE_NAME, handle_MDB_COPY_DATABASE_NAME);
    (MDB_DROP_DATABASE, handle_MDB_DROP_DATABASE);
    (MDB_REFRESH_DATABASE, handle_MDB_REFRESH_DATABASE);
    (MDB_ADD_COLLECTION, handle_MDB_ADD_COLLECTION);
    (MDB_COPY_COLLECTION_NAME, handle_MDB_COPY_COLLECTION_NAME);
    (MDB_DROP_COLLECTION, handle_MDB_DROP_COLLECTION);
    (MDB_VIEW_COLLECTION_DOCUMENTS, handle_MDB_VIEW_COLLECTION_DOCUMENTS);
    (MDB_REFRESH_COLLECTION, handle_MDB_REFRESH_COLLECTION);
    (MDB_SEARCH_FOR_DOCUMENTS, handle_MDB_SEARCH_FOR_DOCUMENTS);
    (MDB_OPEN_MONGODB_DOCUMENT_FROM_TREE, handle_MDB_OPEN_MONGODB_DOCUMENT_FROM_TREE);
    (MDB_REFRESH_DOCUMENT_LIST, handle_MDB_REFRESH_DOCUMENT_LIST);
    (MDB_REFRESH_SCHEMA, handle_MDB_REFRESH_SCHEMA);
    (MDB_COPY_SCHEMA_FIELD_NAME, handle_MDB_COPY_SCHEMA_FIELD_NAME);
    (MDB_REFRESH_INDEXES, handle_MDB_REFRESH_INDEXES);
    (MDB_CREATE_INDEX_TREE_VIEW, handle_MDB_CREATE_INDEX_TREE_VIEW);
    (MDB_CREATE_PLAYGROUND_FROM_VIEW_ACTION, handle_createPlayground);
    (MDB_CREATE_PLAYGROUND_FROM_PLAYGROUND_EXPLORER, handle_createPlayground);
    (MDB_REFRESH_PLAYGROUNDS_FROM_TREE_VIEW, handle_refreshPlaygrounds);
    (MDB_OPEN_PLAYGROUND_FROM_TREE_VIEW, handle_MDB_OPEN_PLAYGROUND_FROM_TREE_VIEW);
    (MDB_COPY_DOCUMENT_CONTENTS_FROM_TREE_VIEW,
     handle_MDB_COPY_DOCUMENT_CONTENTS_FROM_TREE_VIEW);
    (MDB_CLONE_DOCUMENT_FROM_TREE_VIEW, handle_MDB_CLONE_DOCUMENT_FROM_TREE_VIEW);
    (MDB_DELETE_DOCUMENT_FROM_TREE_VIEW, handle_MDB_DELETE_DOCUMENT_FROM_TREE_VIEW);
    (MDB_INSERT_OBJECTID_TO_EDITOR, handle_MDB_INSERT_OBJECTID_TO_EDITOR);
    (MDB_GENERATE_OBJECTID_TO_CLIPBOARD, handle_MDB_GENERATE_OBJECTID_TO_CLIPBOARD) ].

(** What [registerCommand] subscribes for a command and its handler. *)
Definition binding (E : env) (x : EXTENSION_COMMANDS * (env -> handler))
    : EXTENSION_COMMANDS * handler :=
  (fst x, commandHandlerWithTelemetry E (fst x) (snd x E)).

Definition is_reset_cache (e : event) : bool :=
  match e with Called (ResetCache _) => true | _ => false end.

(** The advisories shown, in order. *)
Fixpoint advisories (evs : list event) : list string :=
  match evs with
  | [] => []
  | Called (ShowErrorMessage message) :: evs' => message :: advisories evs'
  | _ :: evs' => advisories evs'
  end.

(** [m] only appends to the log, and nothing it appends satisfies [p]. *)
Definition appends_without {A} (p : event -> bool) (m : world -> outcome A * world)
    : Prop :=
  forall w, exists evs, log (snd (m w)) = log w ++ evs /\ count p evs = 0.

(** The commands whose handler reads a property or calls a method of its
    argument before anything else. *)
Definition commands_dereferencing_argument : list EXTENSION_COMMANDS :=
  [ MDB_OPEN_MONGODB_DOCUMENT_FROM_CODE_LENS; MDB_CODELENS_SHOW_MORE_DOCUMENTS;
    MDB_CONNECT_TO_CONNECTION_TREE_VIEW; MDB_REFRESH_CONNECTION;
    MDB_COPY_CONNECTION_STRING; MDB_REMOVE_CONNECTION_TREE_VIEW;
    MDB_RENAME_CONNECTION; MDB_COPY_DATABASE_NAME; MDB_DROP_DATABASE;
    MDB_REFRESH_DATABASE; MDB_COPY_COLLECTION_NAME; MDB_DROP_COLLECTION;
    MDB_VIEW_COLLECTION_DOCUMENTS; MDB_REFRESH_COLLECTION;
    MDB_SEARCH_FOR_DOCUMENTS; MDB_OPEN_MONGODB_DOCUMENT_FROM_TREE;
    MDB_REFRESH_DOCUMENT_LIST; MDB_REFRESH_SCHEMA; MDB_COPY_SCHEMA_FIELD_NAME;
    MDB_REFRESH_INDEXES; MDB_CREATE_INDEX_TREE_VIEW;
    MDB_OPEN_PLAYGROUND_FROM_TREE_VIEW; MDB_COPY_DOCUMENT_CONTENTS_FROM_TREE_VIEW;
    MDB_CLONE_DOCUMENT_FROM_TREE_VIEW; MDB_DELETE_DOCUMENT_FROM_TREE_VIEW ].

(** The commands whose handler calls [this._explorerController.refresh()]. *)
Definition commands_refreshing_explorer : list EXTENSION_COMMANDS :=
  [ MDB_REFRESH_CONNECTION; MDB_DROP_DATABASE; MDB_REFRESH_DATABASE;
    MDB_DROP_COLLECTION; MDB_REFRESH_COLLECTION; MDB_REFRESH_DOCUMENT_LIST;
    MDB_REFRESH_SCHEMA; MDB_REFRESH_INDEXES; MDB_DELETE_DOCUMENT_FROM_TREE_VIEW ].

(** The commands whose handler calls [vscode.window.showErrorMessage]. *)
Definition commands_showing_advisory : list EXTENSION_COMMANDS :=
  [ MDB_ADD_DATABASE; MDB_ADD_COLLECTION ].

(** The commands whose handler calls [resetCache()]. *)
Definition commands_resetting_cache : list EXTENSION_COMMANDS :=
  [ MDB_REFRESH_CONNECTION; MDB_REFRESH_DATABASE; MDB_REFRESH_COLLECTION;
    MDB_REFRESH_DOCUMENT_LIST; MDB_REFRESH_SCHEMA; MDB_REFRESH_INDEXES ].

Fixpoint has_dot (s : string) : bool :=
  match s with
  | EmptyString => false
  | String c s' => Ascii.eqb c "."%char || has_dot s'
  end.

(** How often a session runs [command]. *)
Fixpoint executions (command : EXTENSION_COMMANDS) (steps : list step) : nat :=
  match steps with
  | [] => 0
  | Execute c _ :: steps' =>
      (if bool_decide (command = c) then 1 else 0) + executions command steps'
  | _ :: steps' => executions command steps'
  end.

(** The commands the controller asked the host to run, in order. *)
Fixpoint requests (evs : list event) : list EXTENSION_COMMANDS :=
  match evs with
  | [] => []
  | Called (ExecuteCommand c) :: evs' => c :: requests evs'
  | _ :: evs' => requests evs'
  end.

Definition is_request (command : EXTENSION_COMMANDS) (e : event) : bool :=
  match e with
  | Called (ExecuteCommand c) => bool_decide (command = c)
  | _ => false
  end.

(** The host runs the commands it was asked for with
    [vscode.commands.executeCommand(command)]: each through its binding,
    without arguments. *)
Definition dispatch (E : env) (commands : list EXTENSION_COMMANDS) (w : world) : world :=
  fold_left (fun w c => snd (executeCommand (registerCommands E []) c [] w)) commands w.

(** A step of the extension's life followed by the runs the controller asked
    the host for during that step. *)
Definition run_step_dispatching (E : env) (key : string) (s : step) (w : world) : world :=
  let w' := run_step E key s w in
  dispatch E (requests (new_events w w')) w'.

Definition dispatching_session (E : env) (key : string) (steps : list step) (w : world)
    : world :=
  fold_left (fun w s => run_step_dispatching E key s w) steps w.

(** A document of the collection [archive.2024] of database [shop]. *)
Definition sample_document : TreeItem :=
  mkTreeItem 11 {[ "namespace" := "shop.archive.2024" ]}.

(** The clipboard is out of order; everything else resolves to [true]. *)
Definition env_clipboard_broken : env :=
  mkEnv (fun _ o => match o with
                    | ClipboardWriteText _ => Failed (Rejection "clipboard")
                    | _ => Resolved (VBool true)
                    end)
        (fun _ _ => VStr "text") (fun _ _ => []).

(** The saved connections cannot be loaded. *)
Definition env_load_fails : env :=
  mkEnv (fun _ o => match o with
                    | External "connectionController.loadSavedConnections" _ =>
                        Failed (Rejection "load")
                    | _ => Resolved (VBool true)
                    end)
        (fun _ _ => VBool false) (fun _ _ => []).

(** * Properties *)

(** ** Logs *)

Lemma count_app p (l1 l2 : list event) :
  count p (l1 ++ l2) = count p l1 + count p l2.
Proof.
  induction l1 as [|e l1 IH]; simpl; [reflexivity|].
  rewrite IH. lia.
Qed.

Lemma new_events_app (w w' : world) (evs : list event) :
  log w' = log w ++ evs -> new_events w w' = evs.
Proof.
  intros H. unfold new_events. rewrite H. apply drop_app_length.
Qed.

Lemma log_emit e w : log (emit e w) = log w ++ [e].
Proof. reflexivity. Qed.

Lemma log_effect o w : log (effect o w) = log w.
Proof. destruct o; reflexivity. Qed.

(** Runs a handler symbolically: unfolds the monad and flattens the log. *)
Ltac run :=
  unfold bind, call, await, ret, throw, get_prop, call_method, await_method,
    resetCache, await_resetCache, with_item, arg0, settles, query in *;
  simpl in *; unfold await, settles in *; simpl in *.

Ltac flat := rewrite <- ?app_assoc; simpl.

(** ** Drop and delete commands *)

(** C1.  For each of drop database, drop collection and delete document: when
    the tree item's mutation resolves to [ok], the handler resolves to [ok];
    for [ok = true] it has shown exactly one confirmation and refreshed the
    explorer exactly once, for [ok = false] it has shown nothing and has not
    refreshed. *)
Theorem mutating_command_confirms_and_refreshes_once :
  forall E c h method message,
    In (c, h, method, message) mutating_tree_commands ->
    forall (t : TreeItem) (rest : list value) (w : world) (ok : bool),
      settle E w (ItemMethod (ref t) method) = Resolved (VBool ok) ->
      let r := h E (VItem t :: rest) w in
      let mutation := ItemMethod (ref t) method in
      fst r = Resolved (VBool ok) /\
      log (snd r) =
        log w ++ [Called mutation; Settled mutation (Resolved (VBool ok))]
              ++ (if ok
                  then [Called (ShowInformationMessage message); Called ExplorerRefresh]
                  else []) /\
      count is_information (new_events w (snd r)) = (if ok then 1 else 0) /\
      count is_refresh (new_events w (snd r)) = (if ok then 1 else 0).
Proof.
  intros E c h method message Hin t rest w ok Hsettle.
  assert (Hrun :
    fst (h E (VItem t :: rest) w) = Resolved (VBool ok) /\
    log (snd (h E (VItem t :: rest) w)) =
      log w ++ [Called (ItemMethod (ref t) method);
                Settled (ItemMethod (ref t) method) (Resolved (VBool ok))]
            ++ (if ok
                then [Called (ShowInformationMessage message); Called ExplorerRefresh]
                else [])).
  { simpl in Hin.
    destruct Hin as [Heq | [Heq | [Heq | []]]]; inversion Heq; subst; clear Heq;
      unfold handle_MDB_DROP_DATABASE, handle_MDB_DROP_COLLECTION,
        handle_MDB_DELETE_DOCUMENT_FROM_TREE_VIEW; run;
      rewrite Hsettle; destruct ok; simpl; flat; auto. }
  destruct Hrun as [Hres Hlog]. cbv zeta.
  rewrite (new_events_app _ _ _ Hlog).
  repeat split; try assumption; destruct ok; reflexivity.
Qed.

Lemma mutating_command_confirms_and_refreshes_once_witness :
  fst (handle_MDB_DROP_COLLECTION env_success [VItem sample_database] idle_world)
    = Resolved (VBool true) /\
  count is_refresh
    (new_events idle_world
       (snd (handle_MDB_DROP_COLLECTION env_success [VItem sample_database] idle_world)))
    = 1.
Proof.
  pose proof (mutating_command_confirms_and_refreshes_once env_success
    MDB_DROP_COLLECTION handle_MDB_DROP_COLLECTION
    "onDropCollectionClicked" "Collection successfully dropped.") as H.
  specialize (H ltac:(simpl; auto) sample_database [] idle_world true eq_refl).
  destruct H as (H1 & _ & _ & H4).
  split; [exact H1 | exact H4].
Defined.

(** ** Quiet computations *)

Section Quiet.

Context (E : env).

Lemma quiet_ret {A} (a : A) : quiet (ret a).
Proof. intros w. exists []. simpl. rewrite app_nil_r. auto. Qed.

Lemma quiet_throw {A} (f : fault) : quiet (@throw A f).
Proof. intros w. exists []. simpl. rewrite app_nil_r. auto. Qed.

Lemma quiet_bind {A B} (m : world -> outcome A * world)
    (k : A -> world -> outcome B * world) :
  quiet m -> (forall a, quiet (k a)) -> quiet (bind m k).
Proof.
  intros Hm Hk w. unfold bind.
  destruct (Hm w) as (evs1 & Hlog1 & Hc1 & Hs1).
  destruct (m w) as [[a|f] w1]; simpl in *.
  - destruct (Hk a w1) as (evs2 & Hlog2 & Hc2 & Hs2).
    exists (evs1 ++ evs2).
    rewrite Hlog2, Hlog1, app_assoc, count_app, Hs2, Hs1.
    split_and!; [reflexivity | lia | reflexivity].
  - exists evs1. auto.
Qed.

Lemma storage_effect (o : op) w :
  is_reserved (Called o) = false -> storage (effect o w) = storage w.
Proof. destruct o; simpl; intros H; try discriminate; reflexivity. Qed.

Lemma quiet_call (o : op) :
  is_reserved (Called o) = false -> quiet (call E o).
Proof.
  intros Hp w. exists [Called o]. unfold call. cbn [fst snd count].
  rewrite log_effect, log_emit, Hp, (storage_effect o _ Hp). auto.
Qed.

Lemma quiet_await (o : op) :
  is_reserved (Called o) = false -> quiet (await E o).
Proof.
  intros Hp w. exists [Called o; Settled o (settles E o w)].
  unfold await. cbn [fst snd count].
  rewrite log_emit, log_effect, log_emit, Hp, <- app_assoc.
  split_and!; [reflexivity | reflexivity |].
  change (storage (effect o (emit (Called o) w)) = storage w).
  rewrite (storage_effect o _ Hp). reflexivity.
Qed.

Lemma quiet_get_prop (v : value) (name : string) : quiet (get_prop v name).
Proof. destruct v; simpl; auto using @quiet_ret, @quiet_throw. Qed.

Lemma quiet_with_item {A} (v : value) (name : string)
    (k : TreeItem -> world -> outcome A * world) :
  (forall t, quiet (k t)) -> quiet (with_item v name k).
Proof. intros Hk. destruct v; simpl; auto using @quiet_throw. Qed.

Lemma quiet_if {A} (b : bool) (m1 m2 : world -> outcome A * world) :
  quiet m1 -> quiet m2 -> quiet (if b then m1 else m2).
Proof. destruct b; auto. Qed.

End Quiet.

Create HintDb quiet.
#[local] Hint Resolve quiet_ret quiet_throw quiet_get_prop : quiet.
#[local] Hint Extern 1 (quiet (bind _ _)) => apply quiet_bind; [|intros] : quiet.
#[local] Hint Extern 1 (quiet (call _ _)) => apply quiet_call; reflexivity : quiet.
#[local] Hint Extern 1 (quiet (await _ _)) => apply quiet_await; reflexivity : quiet.
#[local] Hint Extern 1 (quiet (with_item _ _ _)) =>
  apply quiet_with_item; intros : quiet.
#[local] Hint Extern 1 (quiet (if _ then _ else _)) => apply quiet_if : quiet.
#[local] Hint Extern 2 (quiet (match ?x with _ => _ end)) => destruct x : quiet.

Ltac head_of t :=
  lazymatch t with
  | ?f _ => head_of f
  | _ => t
  end.

Ltac unfold_head :=
  lazymatch goal with
  | |- quiet ?m => let h := head_of m in try unfold h
  end.

Ltac prove_quiet :=
  unfold_head;
  unfold call_method, await_method, resetCache, await_resetCache;
  auto 20 with quiet.

(** Events that are not reserved are not counted by a predicate that only
    holds of reserved ones. *)
Lemma count_unreserved (p : event -> bool) evs :
  (forall e, p e = true -> is_reserved e = true) ->
  count is_reserved evs = 0 -> count p evs = 0.
Proof.
  intros Hp. induction evs as [|e evs IH]; simpl; [reflexivity|].
  destruct (p e) eqn:Hpe.
  - rewrite (Hp e Hpe). discriminate.
  - intros H. apply IH. destruct (is_reserved e); simpl in H; lia.
Qed.

Lemma is_track_reserved c e : is_track c e = true -> is_reserved e = true.
Proof. destruct e as [[]|]; simpl; auto. Qed.

Lemma is_flag_update_reserved key e : is_flag_update key e = true -> is_reserved e = true.
Proof. destruct e as [[]|]; simpl; auto. Qed.

Lemma is_open_overview_reserved e : is_open_overview e = true -> is_reserved e = true.
Proof. destruct e as [[]|]; simpl; auto. Qed.

(** Every binding of the registry is a telemetry wrapper around a quiet
    handler. *)
Lemma registerCommands_wrapped E :
  Forall (fun b => exists inner,
            snd b = commandHandlerWithTelemetry E (fst b) inner /\
            forall args, quiet (inner args))
         (registerCommands E []).
Proof.
  unfold registerCommands, registerEditorCommands, registerTreeViewCommands,
    registerCommand. simpl.
  repeat (constructor;
    [ eexists; split; [reflexivity|]; intros args; prove_quiet |]).
  constructor.
Qed.

(** None of the handlers the controller registers reads beyond its first
    parameter. *)
Lemma registerCommands_unary E :
  Forall (fun b => exists inner,
            snd b = commandHandlerWithTelemetry E (fst b) inner /\
            forall hostArgs, inner hostArgs = inner [arg0 hostArgs])
         (registerCommands E []).
Proof.
  unfold registerCommands, registerEditorCommands, registerTreeViewCommands,
    registerCommand. simpl.
  repeat (constructor; [ eexists; split; reflexivity |]).
  constructor.
Qed.

(** The handlers of the three tables are the ones the controller registers
    under these commands. *)
Ltac find_binding :=
  unfold registerCommands, registerEditorCommands, registerTreeViewCommands,
    registerCommand; simpl;
  repeat first [ left; reflexivity | right ].

Lemma tables_registered E :
  Forall (fun x => In (fst (fst (fst x)),
                       commandHandlerWithTelemetry E (fst (fst (fst x)))
                         (snd (fst (fst x)) E))
                      (registerCommands E []))
         mutating_tree_commands /\
  Forall (fun x => In (fst (fst x),
                       commandHandlerWithTelemetry E (fst (fst x)) (snd (fst x) E))
                      (registerCommands E []))
         refresh_tree_commands /\
  Forall (fun x => In (fst x, commandHandlerWithTelemetry E (fst x) (snd x E))
                      (registerCommands E []))
         copy_tree_commands.
Proof.
  split_and!; repeat (constructor; [simpl fst; simpl snd; find_binding|]); constructor.
Qed.

(** ** registerCommand *)

(** The wrapper reports the command, then runs the handler on its first
    argument. *)
Lemma commandHandlerWithTelemetry_run E command (commandHandler : handler) hostArgs w :
  commandHandlerWithTelemetry E command commandHandler hostArgs w
  = commandHandler [arg0 hostArgs] (emit (Called (TrackCommandRun command)) w).
Proof. reflexivity. Qed.

(** C2.  For every command bound by [registerCommands], one invocation of the
    bound handler first reports [trackCommandRun(command)] and then runs the
    inner handler; whatever the inner handler does and however it ends, the
    report is in the log exactly once. *)
Theorem registered_command_tracked_once_before_handler :
  forall E command bound,
    In (command, bound) (registerCommands E []) ->
    forall (hostArgs : list value) (w : world),
      exists (inner : handler) (evs : list event),
        let tracked := emit (Called (TrackCommandRun command)) w in
        bound = commandHandlerWithTelemetry E command inner /\
        bound hostArgs w = inner [arg0 hostArgs] tracked /\
        log (snd (inner [arg0 hostArgs] tracked)) = log tracked ++ evs /\
        log (snd (bound hostArgs w)) = log w ++ Called (TrackCommandRun command) :: evs /\
        count (is_track command) (new_events w (snd (bound hostArgs w))) = 1.
Proof.
  intros E command bound Hin hostArgs w.
  pose proof (registerCommands_wrapped E) as Hall.
  rewrite List.Forall_forall in Hall.
  destruct (Hall _ Hin) as (inner & Hbound & Hquiet). simpl in Hbound.
  destruct (Hquiet [arg0 hostArgs] (emit (Called (TrackCommandRun command)) w))
    as (evs & Hlog & Hcount & _).
  exists inner, evs. cbv zeta.
  assert (Hrun : bound hostArgs w
                 = inner [arg0 hostArgs] (emit (Called (TrackCommandRun command)) w)).
  { rewrite Hbound. apply commandHandlerWithTelemetry_run. }
  assert (Hfull : log (snd (bound hostArgs w))
                  = log w ++ Called (TrackCommandRun command) :: evs).
  { rewrite Hrun, Hlog, log_emit, <- app_assoc. reflexivity. }
  split_and!; try assumption.
  rewrite (new_events_app _ _ _ Hfull). simpl.
  rewrite (count_unreserved _ evs (is_track_reserved command) Hcount).
  rewrite bool_decide_eq_true_2; reflexivity.
Qed.

Lemma registered_command_tracked_once_before_handler_witness :
  exists inner evs,
    executeCommand (registerCommands env_failure []) MDB_DROP_DATABASE
      [VItem sample_database] idle_world
    = inner [VItem sample_database]
        (emit (Called (TrackCommandRun MDB_DROP_DATABASE)) idle_world) /\
    log (snd (executeCommand (registerCommands env_failure []) MDB_DROP_DATABASE
                [VItem sample_database] idle_world))
    = Called (TrackCommandRun MDB_DROP_DATABASE) :: evs.
Proof.
  destruct (registered_command_tracked_once_before_handler env_failure
              MDB_DROP_DATABASE
              (commandHandlerWithTelemetry env_failure MDB_DROP_DATABASE
                 (handle_MDB_DROP_DATABASE env_failure))
              ltac:(find_binding)
              [VItem sample_database] idle_world)
    as (inner & evs & _ & H1 & _ & H3 & _).
  exists inner, evs. split; [exact H1 | exact H3].
Defined.

Example tracked_even_when_handler_rejects :
  executeCommand (registerCommands env_rejecting []) MDB_DROP_DATABASE
    [VItem sample_database] idle_world
  = (Failed (Rejection "unreachable"),
     mkWorld [ Called (TrackCommandRun MDB_DROP_DATABASE);
               Called (ItemMethod 7 "onDropDatabaseClicked");
               Settled (ItemMethod 7 "onDropDatabaseClicked")
                 (Failed (Rejection "unreachable")) ]
       false false VNull ∅ ∅).
Proof. reflexivity. Qed.

(** C6.  A handler of two parameters, bound through [registerCommand] and run
    by the host with two arguments, does not see the second one: called
    directly with [(true, true)] it resolves to [true], called through its
    binding with the same arguments it resolves to [false]. *)
Theorem wrapper_forwards_first_argument_only :
  let hostArgs := [VBool true; VBool true] in
  let subs := registerCommand env_success MDB_CONNECT second_argument_handler [] in
  fst (second_argument_handler hostArgs idle_world) = Resolved (VBool true) /\
  fst (executeCommand subs MDB_CONNECT hostArgs idle_world) = Resolved (VBool false) /\
  executeCommand subs MDB_CONNECT hostArgs idle_world
  = second_argument_handler [VBool true]
      (emit (Called (TrackCommandRun MDB_CONNECT)) idle_world).
Proof. repeat split. Qed.

(** ** Missing tree item *)

(** C7.  Run without an argument, "drop database", "copy database name",
    "drop collection" and "delete document" fail with a [TypeError]: after the
    telemetry report nothing is logged, so no advisory is shown, and the
    outcome is a fault, not [false]. *)
Theorem missing_tree_item_raises_type_error :
  forall E w,
    Forall (fun command =>
              exists what,
                executeCommand (registerCommands E []) command [] w
                = (Failed (TypeError what),
                   emit (Called (TrackCommandRun command)) w))
           commands_needing_tree_item.
Proof.
  intros E w. unfold commands_needing_tree_item.
  repeat constructor; eexists; reflexivity.
Qed.

(** ** Add collection and add database *)

(** C3.  While the connection controller is connecting (and not
    disconnecting), "add collection" shows no advisory and goes on to create
    the playground; it asks only [isDisconnecting()], neither [isConnecting()]
    nor the active connection identifier. *)
Theorem add_collection_proceeds_while_connecting :
  forall E (t : TreeItem),
    let w := connecting_world in
    let create := CreatePlaygroundForCreateCollection (VItem t) in
    let asked := emit (Called IsDisconnecting) w in
    let r := handle_MDB_ADD_COLLECTION E [VItem t] w in
    connecting w = true /\
    fst r = settle E asked create /\
    log (snd r) = [Called IsDisconnecting; Called create;
                   Settled create (settle E asked create)] /\
    count is_advisory (new_events w (snd r)) = 0 /\
    count is_create_playground (new_events w (snd r)) = 1.
Proof. intros E t. repeat split. Qed.

(** C4.  "Add database" resolves to [false], having shown exactly one advisory
    and without asking for the playground, whenever its argument is missing
    (falsy), or the argument's [connectionId] is not the active connection
    identifier, or the controller is disconnecting, or it is connecting.  When
    none of these holds it shows no advisory, asks for the playground exactly
    once and resolves to whatever that request settles to. *)
Theorem add_database_checks_preconditions :
  forall E (args : list value) (w : world),
    let element := arg0 args in
    let create := CreatePlaygroundForCreateCollection element in
    let r := handle_MDB_ADD_DATABASE E args w in
    (truthy element = false \/
     strict_eq (connectionId_of element) (activeConnectionId w) = false \/
     disconnecting w = true \/
     connecting w = true ->
     fst r = Resolved (VBool false) /\
     count is_advisory (new_events w (snd r)) = 1 /\
     count is_create_playground (new_events w (snd r)) = 0) /\
    (truthy element = true /\
     strict_eq (connectionId_of element) (activeConnectionId w) = true /\
     disconnecting w = false /\
     connecting w = false ->
     let checked := emit (Called IsConnecting)
                      (emit (Called IsDisconnecting)
                         (emit (Called GetActiveConnectionId) w)) in
     fst r = settle E checked create /\
     log (snd r) = log checked ++ [Called create; Settled create (settle E checked create)] /\
     count is_advisory (new_events w (snd r)) = 0 /\
     count is_create_playground (new_events w (snd r)) = 1).
Proof.
  intros E args w element create r.
  assert (Hshape :
    if truthy element
       && strict_eq (connectionId_of element) (activeConnectionId w)
       && negb (disconnecting w) && negb (connecting w)
    then
      fst r = settle E (emit (Called IsConnecting)
                         (emit (Called IsDisconnecting)
                            (emit (Called GetActiveConnectionId) w))) create /\
      log (snd r) = log w ++ [Called GetActiveConnectionId; Called IsDisconnecting;
                              Called IsConnecting; Called create;
                              Settled create
                                (settle E (emit (Called IsConnecting)
                                   (emit (Called IsDisconnecting)
                                      (emit (Called GetActiveConnectionId) w))) create)]
    else
      fst r = Resolved (VBool false) /\
      exists pre message,
        log (snd r) = log w ++ pre ++ [Called (ShowErrorMessage message)] /\
        count is_advisory pre = 0 /\ count is_create_playground pre = 0).
  { subst r create. unfold handle_MDB_ADD_DATABASE. fold element.
    clearbody element.
    assert (Hprop : truthy element = true ->
                    get_prop element "connectionId" = ret (connectionId_of element)).
    { intros Ht. destruct element; simpl in *; try discriminate; reflexivity. }
    destruct (truthy element) eqn:Htruthy.
    2:{ simpl. split; [reflexivity|]. exists []; eexists. run.
        split; [reflexivity|auto]. }
    rewrite (Hprop eq_refl). clear Hprop. run.
    destruct (strict_eq (connectionId_of element) (activeConnectionId w)); simpl.
    2:{ split; [reflexivity|]. exists [Called GetActiveConnectionId]; eexists.
        flat. split; [reflexivity|auto]. }
    destruct (disconnecting w); simpl.
    { split; [reflexivity|].
      exists [Called GetActiveConnectionId; Called IsDisconnecting]; eexists.
      flat. split; [reflexivity|auto]. }
    destruct (connecting w); simpl.
    { split; [reflexivity|].
      exists [Called GetActiveConnectionId; Called IsDisconnecting; Called IsConnecting];
        eexists.
      flat. split; [reflexivity|auto]. }
    split; [reflexivity|]. flat. reflexivity. }
  split.
  - intros Hviolated.
    assert (Hfalse : truthy element
       && strict_eq (connectionId_of element) (activeConnectionId w)
       && negb (disconnecting w) && negb (connecting w) = false).
    { destruct Hviolated as [H | [H | [H | H]]]; rewrite H; simpl;
        rewrite ?andb_false_r; reflexivity. }
    rewrite Hfalse in Hshape.
    destruct Hshape as (Hres & pre & message & Hlog & Hadv & Hcreate).
    rewrite (new_events_app _ _ _ Hlog), !count_app, Hadv, Hcreate.
    auto.
  - intros (H1 & H2 & H3 & H4). rewrite H1, H2, H3, H4 in Hshape. simpl in Hshape.
    destruct Hshape as (Hres & Hlog). cbv zeta.
    repeat split.
    + exact Hres.
    + rewrite Hlog. simpl. flat. reflexivity.
    + rewrite (new_events_app _ _ _ Hlog). reflexivity.
    + rewrite (new_events_app _ _ _ Hlog). reflexivity.
Qed.

Lemma add_database_checks_preconditions_witness :
  fst (handle_MDB_ADD_DATABASE env_success [VItem sample_connection] connecting_world)
    = Resolved (VBool false) /\
  fst (handle_MDB_ADD_DATABASE env_success [VItem sample_connection] connected_world)
    = Resolved (VBool true).
Proof.
  split.
  - apply (add_database_checks_preconditions env_success
             [VItem sample_connection] connecting_world).
    right; right; right; reflexivity.
  - apply (add_database_checks_preconditions env_success
             [VItem sample_connection] connected_world).
    repeat split.
Defined.

(** ** First-run gate *)

Section Gate.

Context (E : env) (key : string).

(** With the flag set, the gate only reads it. *)
Lemma gate_shown w :
  shown key w = true ->
  showOverviewPageIfRecentlyInstalled E key w
  = (Resolved VUndefined, emit (Called (StorageGet key)) w).
Proof.
  intros Hshown. unfold showOverviewPageIfRecentlyInstalled, shown in *. run.
  rewrite Hshown. reflexivity.
Qed.

(** With the flag unset, the gate opens the overview page unless there are
    saved connections, and sets the flag either way. *)
Lemma gate_not_shown w :
  shown key w = false ->
  let asked := emit (Called (StorageGet key)) w in
  let w' := snd (showOverviewPageIfRecentlyInstalled E key w) in
  log w' = log w
           ++ [Called (StorageGet key); Called HasSavedConnections]
           ++ (if truthy (answer E asked HasSavedConnections) then []
               else [Called (ExecuteCommand MDB_OPEN_OVERVIEW_PAGE)])
           ++ [Called (StorageUpdate key (VBool true))] /\
  storage w' = <[key := VBool true]> (storage w).
Proof.
  intros Hshown. unfold showOverviewPageIfRecentlyInstalled, shown in *. run.
  rewrite Hshown. simpl.
  destruct (truthy (answer E (emit (Called (StorageGet key)) w) HasSavedConnections));
    simpl; flat; split; reflexivity.
Qed.

Lemma gate_run w :
  let asked := emit (Called (StorageGet key)) w in
  let saved := truthy (answer E asked HasSavedConnections) in
  let w' := snd (showOverviewPageIfRecentlyInstalled E key w) in
  exists evs,
    log w' = log w ++ evs /\
    shown key w' = true /\
    count (is_flag_update key) evs = (if shown key w then 0 else 1) /\
    count is_open_overview evs = (if shown key w || saved then 0 else 1).
Proof.
  cbv zeta. destruct (shown key w) eqn:Hshown.
  - rewrite (gate_shown w Hshown). simpl.
    exists [Called (StorageGet key)]. split_and!; try reflexivity. exact Hshown.
  - destruct (gate_not_shown w Hshown) as [Hlog Hsto].
    eexists. split; [exact Hlog|]. split_and!.
    + unfold shown. rewrite Hsto, lookup_insert_eq. reflexivity.
    + simpl. destruct (truthy _); simpl; rewrite String.eqb_refl; reflexivity.
    + simpl. destruct (truthy _); reflexivity.
Qed.

Lemma startup_quiet : quiet (startup E).
Proof. unfold startup. auto 20 with quiet. Qed.

Lemma dispose_quiet : quiet (dispose E).
Proof. unfold dispose, deactivate. auto 30 with quiet. Qed.

(** A command run by the host writes no flag and opens no overview page. *)
Lemma executeCommand_gate command hostArgs w :
  let w' := snd (executeCommand (registerCommands E []) command hostArgs w) in
  exists evs,
    log w' = log w ++ evs /\
    count (is_flag_update key) evs = 0 /\
    count is_open_overview evs = 0 /\
    storage w' = storage w.
Proof.
  cbv zeta. unfold executeCommand.
  destruct (List.find _ (registerCommands E [])) as [[c bound]|] eqn:Hfind.
  - apply List.find_some in Hfind. destruct Hfind as [Hin _].
    pose proof (registerCommands_wrapped E) as Hall.
    rewrite List.Forall_forall in Hall.
    destruct (Hall _ Hin) as (inner & Hbound & Hquiet). simpl in Hbound.
    rewrite Hbound, commandHandlerWithTelemetry_run.
    destruct (Hquiet [arg0 hostArgs] (emit (Called (TrackCommandRun c)) w))
      as (evs & Hlog & Hcount & Hsto).
    exists (Called (TrackCommandRun c) :: evs).
    rewrite Hlog, Hsto, log_emit, <- app_assoc. simpl.
    rewrite (count_unreserved _ evs (is_flag_update_reserved key) Hcount).
    rewrite (count_unreserved _ evs is_open_overview_reserved Hcount).
    auto.
  - exists []. simpl. rewrite app_nil_r. auto.
Qed.

(** A step that writes no flag. *)
Lemma unchanged_flag w w' evs :
  log w' = log w ++ evs ->
  count (is_flag_update key) evs = 0 ->
  count is_open_overview evs = 0 ->
  storage w' = storage w ->
  count (is_flag_update key) evs = transitions key w w' /\
  count is_open_overview evs <= count (is_flag_update key) evs /\
  (shown key w = true -> shown key w' = true).
Proof.
  intros _ Hupd Hopen Hsto.
  assert (Hshown : shown key w' = shown key w) by (unfold shown; rewrite Hsto; reflexivity).
  unfold transitions. rewrite Hshown, Hupd, Hopen.
  split_and!; [destruct (shown key w); reflexivity | lia | auto].
Qed.

Lemma quiet_gate w w' evs :
  log w' = log w ++ evs ->
  count is_reserved evs = 0 ->
  storage w' = storage w ->
  count (is_flag_update key) evs = transitions key w w' /\
  count is_open_overview evs <= count (is_flag_update key) evs /\
  (shown key w = true -> shown key w' = true).
Proof.
  intros Hlog Hcount Hsto. apply unchanged_flag; try assumption.
  - apply (count_unreserved _ evs (is_flag_update_reserved key) Hcount).
  - apply (count_unreserved _ evs is_open_overview_reserved Hcount).
Qed.

(** An activation that gets as far as the gate ends as the gate does. *)
Lemma activate_reached subs w v reached :
  startup E w = (Resolved v, reached) ->
  snd (activate E key subs w)
  = snd (showOverviewPageIfRecentlyInstalled E key reached).
Proof.
  intros Hs. unfold activate. unfold bind at 1. rewrite Hs.
  unfold bind.
  destruct (showOverviewPageIfRecentlyInstalled E key reached) as [[?|?] ?];
    reflexivity.
Qed.

Lemma activate_aborted subs w f reached :
  startup E w = (Failed f, reached) ->
  snd (activate E key subs w) = reached.
Proof. intros Hs. unfold activate. unfold bind at 1. rewrite Hs. reflexivity. Qed.

Lemma run_step_gate s w :
  let w' := run_step E key s w in
  exists evs,
    log w' = log w ++ evs /\
    count (is_flag_update key) evs = transitions key w w' /\
    count is_open_overview evs <= count (is_flag_update key) evs /\
    (shown key w = true -> shown key w' = true).
Proof.
  cbv zeta. destruct s as [|command hostArgs|]; simpl.
  - destruct (startup_quiet w) as (evs0 & Hlog0 & Hcount0 & Hsto0).
    destruct (startup E w) as [[v|f] reached] eqn:Hs; simpl in *.
    + rewrite (activate_reached [] w v reached Hs).
      destruct (gate_run reached) as (evs1 & Hlog1 & Hshown1 & Hupd1 & Hopen1).
      assert (Hshown : shown key reached = shown key w)
        by (unfold shown; rewrite Hsto0; reflexivity).
      exists (evs0 ++ evs1). rewrite Hlog1, Hlog0, app_assoc, !count_app.
      rewrite (count_unreserved _ evs0 (is_flag_update_reserved key) Hcount0).
      rewrite (count_unreserved _ evs0 is_open_overview_reserved Hcount0).
      rewrite Hupd1, Hopen1, Hshown. unfold transitions. rewrite Hshown1.
      split_and!; [reflexivity | | | auto].
      * destruct (shown key w); reflexivity.
      * destruct (shown key w); simpl; [lia|]. destruct (truthy _); simpl; lia.
    + rewrite (activate_aborted [] w f reached Hs).
      exists evs0. split; [exact Hlog0|]. apply (quiet_gate w reached evs0); assumption.
  - destruct (executeCommand_gate command hostArgs w) as (evs & Hlog & Hupd & Hopen & Hsto).
    exists evs. split; [exact Hlog|]. apply unchanged_flag; assumption.
  - destruct (dispose_quiet w) as (evs & Hlog & Hcount & Hsto).
    exists evs. split; [exact Hlog|]. apply (quiet_gate w _ evs); assumption.
Qed.

Lemma session_gate steps : forall w,
  let w' := session E key steps w in
  exists evs,
    log w' = log w ++ evs /\
    count (is_flag_update key) evs = transitions key w w' /\
    count is_open_overview evs <= count (is_flag_update key) evs /\
    (shown key w = true -> shown key w' = true).
Proof.
  induction steps as [|s steps IH]; intros w; cbv zeta; simpl.
  - exists []. rewrite app_nil_r. unfold transitions. simpl.
    split_and!; [reflexivity | destruct (shown key w); reflexivity | lia | auto].
  - destruct (run_step_gate s w) as (evs1 & Hlog1 & Hupd1 & Hopen1 & Hmono1).
    destruct (IH (run_step E key s w)) as (evs2 & Hlog2 & Hupd2 & Hopen2 & Hmono2).
    exists (evs1 ++ evs2). rewrite Hlog2, Hlog1, app_assoc, !count_app.
    split_and!; [reflexivity | | lia | auto].
    rewrite Hupd1, Hupd2. unfold transitions in *.
    destruct (shown key w) eqn:Hw.
    + rewrite (Hmono1 eq_refl). reflexivity.
    + destruct (shown key (run_step E key s w)) eqn:Hw1.
      * rewrite (Hmono2 eq_refl). reflexivity.
      * reflexivity.
Qed.

End Gate.

(** C5.  Over the whole life of the extension (activations, commands and
    disposals in any number and order, starting in world [w] and ending in
    [w']) the flag is written once if it went from not shown to shown and
    never otherwise, so at most once; a set flag stays set; the overview
    command is issued at most as often as the flag is written, so at most
    once.  An activation that gets as far as the gate leaves the flag set
    whether or not there are saved connections; it writes the flag exactly
    when it was not set, and issues the overview command exactly when the
    flag was not set and there were no saved connections. *)
Theorem first_run_gate_fires_at_most_once :
  forall E key,
    (forall (steps : list step) (w : world),
       let w' := session E key steps w in
       count (is_flag_update key) (new_events w w') = transitions key w w' /\
       count (is_flag_update key) (new_events w w') <= 1 /\
       count is_open_overview (new_events w w')
         <= count (is_flag_update key) (new_events w w') /\
       count is_open_overview (new_events w w') <= 1 /\
       (shown key w = true -> shown key w' = true)) /\
    (forall (subs : subscriptions) (w reached : world) (v : value),
       startup E w = (Resolved v, reached) ->
       let w' := snd (activate E key subs w) in
       let asked := emit (Called (StorageGet key)) reached in
       let saved := truthy (answer E asked HasSavedConnections) in
       shown key w' = true /\
       count (is_flag_update key) (new_events w w') = (if shown key w then 0 else 1) /\
       count is_open_overview (new_events w w')
         = (if shown key w || saved then 0 else 1)).
Proof.
  intros E key. split.
  - intros steps w. cbv zeta.
    destruct (session_gate E key steps w) as (evs & Hlog & Hupd & Hopen & Hmono).
    rewrite (new_events_app _ _ _ Hlog).
    assert (Hle : transitions key w (session E key steps w) <= 1).
    { unfold transitions. repeat destruct (shown key _); lia. }
    split_and!; [exact Hupd | lia | exact Hopen | lia | exact Hmono].
  - intros subs w reached v Hs. cbv zeta.
    destruct (startup_quiet E w) as (evs0 & Hlog0 & Hcount0 & Hsto0).
    rewrite Hs in Hlog0, Hsto0. simpl in Hlog0, Hsto0.
    rewrite (activate_reached E key subs w v reached Hs).
    destruct (gate_run E key reached) as (evs1 & Hlog1 & Hshown1 & Hupd1 & Hopen1).
    assert (Hshown : shown key reached = shown key w)
      by (unfold shown; rewrite Hsto0; reflexivity).
    rewrite Hlog0, <- app_assoc in Hlog1.
    rewrite (new_events_app _ _ _ Hlog1), !count_app.
    rewrite (count_unreserved _ evs0 (is_flag_update_reserved key) Hcount0).
    rewrite (count_unreserved _ evs0 is_open_overview_reserved Hcount0).
    rewrite Hupd1, Hopen1, Hshown.
    split_and!; [exact Hshown1 | reflexivity | reflexivity].
Qed.

Lemma first_run_gate_fires_at_most_once_witness :
  shown "shown" (snd (activate env_fresh "shown" [] idle_world)) = true /\
  count is_open_overview
    (new_events idle_world (snd (activate env_fresh "shown" [] idle_world))) = 1.
Proof.
  destruct (first_run_gate_fires_at_most_once env_fresh "shown") as [_ Hone].
  destruct (Hone [] idle_world _ _ eq_refl) as (Hshown & _ & Hopen).
  split; [exact Hshown | exact Hopen].
Defined.

Example fresh_install_opens_overview_once :
  filter (fun e => bool_decide (is_reserved e = true))
    (log (session env_fresh "shown"
            [Activate; Execute MDB_OPEN_OVERVIEW_PAGE []; Dispose; Activate]
            idle_world))
  = [ Called (ExecuteCommand MDB_OPEN_OVERVIEW_PAGE);
      Called (StorageUpdate "shown" (VBool true));
      Called (TrackCommandRun MDB_OPEN_OVERVIEW_PAGE) ].
Proof. reflexivity. Qed.

(** ** Refresh commands *)



Example refresh_document_list_rejects_without_refresh :
  handle_MDB_REFRESH_DOCUMENT_LIST env_rejecting [VItem sample_database] idle_world
  = (Failed (Rejection "unreachable"),
     mkWorld [ Called (ResetCache 7);
               Settled (ResetCache 7) (Failed (Rejection "unreachable")) ]
       false false VNull ∅ ∅).
Proof. reflexivity. Qed.

(** ** Teardown *)

(** C9.  [dispose] does what [deactivate] does.  [deactivate] first calls
    [disconnect()] and waits until that promise has settled; only then, and
    only if it resolved, the seven components are deactivated in order.  No
    deactivation is logged before the settlement. *)
Theorem deactivate_awaits_disconnect_first :
  forall E (w : world),
    let settled := settle E w Disconnect in
    let r := deactivate E w in
    dispose E w = deactivate E w /\
    new_events w (snd r)
      = Called Disconnect :: Settled Disconnect settled
        :: match settled with
           | Resolved _ =>
               map (fun c => Called (Deactivate c))
                 [ ExplorerController; HelpExplorer; PlaygroundsExplorer;
                   PlaygroundController; TelemetryService;
                   LanguageServerController; EditorsController ]
           | Failed _ => []
           end /\
    fst r = match settled with
            | Resolved _ => Resolved VUndefined
            | Failed f => Failed f
            end /\
    (forall i c, new_events w (snd r) !! i = Some (Called (Deactivate c)) -> 2 <= i).
Proof.
  intros E w. cbv zeta.
  assert (Hlog :
    log (snd (deactivate E w))
      = log w ++ Called Disconnect :: Settled Disconnect (settle E w Disconnect)
        :: match settle E w Disconnect with
           | Resolved _ =>
               map (fun c => Called (Deactivate c))
                 [ ExplorerController; HelpExplorer; PlaygroundsExplorer;
                   PlaygroundController; TelemetryService;
                   LanguageServerController; EditorsController ]
           | Failed _ => []
           end).
  { unfold deactivate. run. destruct (settle E w Disconnect); simpl; flat; reflexivity. }
  rewrite (new_events_app _ _ _ Hlog).
  split_and!.
  - unfold dispose, deactivate. run. destruct (settle E w Disconnect); reflexivity.
  - reflexivity.
  - unfold deactivate. run. destruct (settle E w Disconnect); reflexivity.
  - intros [|[|i]] c Hi; simpl in Hi; [discriminate | discriminate | lia].
Qed.

Lemma deactivate_awaits_disconnect_first_witness :
  new_events idle_world (snd (deactivate env_success idle_world)) !! 2
    = Some (Called (Deactivate ExplorerController)) /\
  fst (deactivate env_rejecting idle_world) = Failed (Rejection "unreachable").
Proof.
  split.
  - reflexivity.
  - apply (deactivate_awaits_disconnect_first env_rejecting idle_world).
Defined.

(** ** Clipboard commands *)




(** Settles the promises of the goal with an environment that never rejects. *)
Ltac resolve_with Hnr :=
  repeat match goal with
    | |- context [settle ?E ?w ?o] =>
        let v := fresh "v" in
        let Hv := fresh "Hv" in
        destruct (Hnr w o) as [v Hv]; rewrite Hv; simpl
    end.




Example copy_database_name_log :
  log (snd (handle_MDB_COPY_DATABASE_NAME env_success [VItem sample_database] idle_world))
  = [ Called (ClipboardWriteText (VStr "shop"));
      Settled (ClipboardWriteText (VStr "shop")) (Resolved (VBool true));
      Called (ShowInformationMessage "Copied to clipboard.") ].
Proof. reflexivity. Qed.

(** * Further properties of the controller *)

(** ** The registry *)

(** X1.  [registerCommands] binds 57 commands, no command twice, and every
    command the controller refers to (the one the first-run gate runs
    included) has a binding. *)
Theorem registerCommands_binds_each_command_once :
  forall E,
    NoDup (map fst (registerCommands E [])) /\
    length (registerCommands E []) = 57 /\
    forall command, exists bound, In (command, bound) (registerCommands E []).
Proof.
  intros E. split_and!.
  - unfold registerCommands, registerEditorCommands, registerTreeViewCommands,
      registerCommand. simpl.
    apply (bool_decide_unpack _). vm_compute. exact I.
  - reflexivity.
  - intros command. destruct command; eexists; find_binding.
Qed.

(** X2.  The subscriptions [registerCommands] makes are the bindings of the
    57 handlers of [registered_handlers].  None of these handlers reads
    beyond its first parameter, so for them the wrapper is transparent: the
    bound handler behaves, on every argument list, as the handler itself run
    on the same argument list right after the telemetry call. *)
Theorem registered_handlers_see_their_arguments :
  forall E,
    registerCommands E [] = map (binding E) registered_handlers /\
    forall command (h : env -> handler),
      In (command, h) registered_handlers ->
      forall (hostArgs : list value) (w : world),
        h E hostArgs w = h E [arg0 hostArgs] w /\
        commandHandlerWithTelemetry E command (h E) hostArgs w
        = h E hostArgs (emit (Called (TrackCommandRun command)) w).
Proof.
  intros E. split; [reflexivity|].
  assert (Hunary : Forall (fun x => forall hostArgs, snd x E hostArgs
                                                    = snd x E [arg0 hostArgs])
                          registered_handlers).
  { unfold registered_handlers. repeat (constructor; [reflexivity|]). constructor. }
  rewrite List.Forall_forall in Hunary.
  intros command h Hin hostArgs w. specialize (Hunary _ Hin). simpl in Hunary.
  split.
  - rewrite <- Hunary. reflexivity.
  - rewrite commandHandlerWithTelemetry_run, <- Hunary. reflexivity.
Qed.

Lemma registered_handlers_see_their_arguments_witness :
  commandHandlerWithTelemetry env_success MDB_RENAME_CONNECTION
    (handle_MDB_RENAME_CONNECTION env_success)
    [VItem sample_connection; VBool true] idle_world
  = handle_MDB_RENAME_CONNECTION env_success [VItem sample_connection; VBool true]
      (emit (Called (TrackCommandRun MDB_RENAME_CONNECTION)) idle_world).
Proof.
  apply (proj2 (registered_handlers_see_their_arguments env_success)
           MDB_RENAME_CONNECTION handle_MDB_RENAME_CONNECTION).
  unfold registered_handlers. repeat first [left; reflexivity | right].
Defined.

(** ** Drop and delete, whatever the mutation does *)

(** X3.  The outcome of a drop or delete command is the outcome of the tree
    item's mutation, whatever it is; a confirmation is shown and the explorer
    refreshed exactly when the mutation resolved to a truthy value, so not
    when it rejected. *)
Theorem mutating_command_passes_outcome_on :
  forall E c h method message,
    In (c, h, method, message) mutating_tree_commands ->
    forall (t : TreeItem) (rest : list value) (w : world),
      let settled := settle E w (ItemMethod (ref t) method) in
      let shown_once := match settled with
                        | Resolved v => if truthy v then 1 else 0
                        | Failed _ => 0
                        end in
      let r := h E (VItem t :: rest) w in
      fst r = settled /\
      count is_information (new_events w (snd r)) = shown_once /\
      count is_refresh (new_events w (snd r)) = shown_once.
Proof.
  intros E c h method message Hin t rest w. cbv zeta.
  simpl in Hin.
  destruct Hin as [Heq | [Heq | [Heq | []]]]; inversion Heq; subst; clear Heq;
    unfold handle_MDB_DROP_DATABASE, handle_MDB_DROP_COLLECTION,
      handle_MDB_DELETE_DOCUMENT_FROM_TREE_VIEW; run;
    (destruct (settle E w _) as [v|f]; simpl; [destruct (truthy v); simpl|]);
    (split; [reflexivity|]);
    erewrite new_events_app by (simpl; flat; reflexivity);
    split; reflexivity.
Qed.

Lemma mutating_command_passes_outcome_on_witness :
  fst (handle_MDB_DELETE_DOCUMENT_FROM_TREE_VIEW env_rejecting
         [VItem sample_document] idle_world)
  = Failed (Rejection "unreachable") /\
  count is_refresh
    (new_events idle_world
       (snd (handle_MDB_DELETE_DOCUMENT_FROM_TREE_VIEW env_rejecting
               [VItem sample_document] idle_world))) = 0.
Proof.
  destruct (mutating_command_passes_outcome_on env_rejecting
              MDB_DELETE_DOCUMENT_FROM_TREE_VIEW
              handle_MDB_DELETE_DOCUMENT_FROM_TREE_VIEW
              "onDeleteDocumentClicked" "Document successfully deleted."
              ltac:(simpl; auto) sample_document [] idle_world)
    as (H1 & _ & H3).
  split; [exact H1 | exact H3].
Defined.

(** ** Commands run without their argument *)

(** X4.  Each of the 25 commands whose handler starts by reading a property
    or calling a method of its argument fails with a [TypeError] when run
    without an argument or with [null]: after the telemetry call nothing
    else is called. *)
Theorem dereferencing_commands_fail_without_argument :
  forall E w,
    Forall (fun command =>
              exists what,
                executeCommand (registerCommands E []) command [] w
                = (Failed (TypeError what),
                   emit (Called (TrackCommandRun command)) w) /\
                executeCommand (registerCommands E []) command [VNull] w
                = (Failed (TypeError what),
                   emit (Called (TrackCommandRun command)) w))
           commands_dereferencing_argument.
Proof.
  intros E w. unfold commands_dereferencing_argument.
  repeat (constructor; [eexists; split; reflexivity|]). constructor.
Qed.

(** ** Add database and add collection, in full *)

(** X5.  "Add database" reports the first precondition that fails, in the
    order missing argument, other connection, disconnecting, connecting (so
    while both disconnecting and connecting it reports disconnecting), and
    reports nothing when all hold.  It never fails with a [TypeError]: a
    truthy argument that is no tree item simply has no [connectionId]. *)
Theorem add_database_reports_first_failed_precondition :
  forall E (args : list value) (w : world),
    let element := arg0 args in
    let r := handle_MDB_ADD_DATABASE E args w in
    advisories (new_events w (snd r))
    = (if negb (truthy element) then
         ["Please wait for the connection to finish loading before adding a database."]
       else if negb (strict_eq (connectionId_of element) (activeConnectionId w)) then
         ["Please connect to this connection before adding a database."]
       else if disconnecting w then
         ["Unable to add database: currently disconnecting."]
       else if connecting w then
         ["Unable to add database: currently connecting."]
       else []) /\
    (forall what, fst r = Failed (TypeError what) ->
       exists w', settle E w' (CreatePlaygroundForCreateCollection element)
                  = Failed (TypeError what)).
Proof.
  intros E args w element r. subst r. unfold handle_MDB_ADD_DATABASE. fold element.
  clearbody element.
  assert (Hprop : truthy element = true ->
                  get_prop element "connectionId" = ret (connectionId_of element)).
  { intros Ht. destruct element; simpl in *; try discriminate; reflexivity. }
  destruct (truthy element) eqn:Htruthy.
  2:{ simpl. run. split; [|discriminate].
      erewrite new_events_app by (simpl; flat; reflexivity). reflexivity. }
  rewrite (Hprop eq_refl). clear Hprop. run.
  destruct (strict_eq (connectionId_of element) (activeConnectionId w)); simpl.
  2:{ split; [|discriminate].
      erewrite new_events_app by (simpl; flat; reflexivity). reflexivity. }
  destruct (disconnecting w); simpl.
  { split; [|discriminate].
    erewrite new_events_app by (simpl; flat; reflexivity). reflexivity. }
  destruct (connecting w); simpl.
  { split; [|discriminate].
    erewrite new_events_app by (simpl; flat; reflexivity). reflexivity. }
  split.
  - erewrite new_events_app by (simpl; flat; reflexivity). reflexivity.
  - intros what H. eexists. exact H.
Qed.

(** X6.  "Add collection" looks at nothing but [isDisconnecting()]: while
    disconnecting it shows its advisory and resolves to [false]; otherwise it
    asks for the playground with its argument as it came, [undefined]
    included, and ends as that request does. *)
Theorem add_collection_only_checks_disconnecting :
  forall E (args : list value) (w : world),
    let element := arg0 args in
    let create := CreatePlaygroundForCreateCollection element in
    let asked := emit (Called IsDisconnecting) w in
    let r := handle_MDB_ADD_COLLECTION E args w in
    if disconnecting w then
      fst r = Resolved (VBool false) /\
      new_events w (snd r)
      = [ Called IsDisconnecting;
          Called (ShowErrorMessage "Unable to add collection: currently disconnecting.") ]
    else
      fst r = settle E asked create /\
      new_events w (snd r)
      = [ Called IsDisconnecting; Called create;
          Settled create (settle E asked create) ].
Proof.
  intros E args w. cbv zeta. unfold handle_MDB_ADD_COLLECTION. run.
  destruct (disconnecting w); simpl; (split; [reflexivity|]);
    apply new_events_app; simpl; flat; reflexivity.
Qed.

(** ** Clipboard commands when the clipboard rejects *)

(** X7.  When writing to the clipboard rejects, a clipboard command fails,
    whatever its arguments, and never shows "Copied to clipboard.". *)
Theorem copy_command_silent_when_clipboard_rejects :
  forall E c h,
    In (c, h) copy_tree_commands ->
    (forall w text, exists f, settle E w (ClipboardWriteText text) = Failed f) ->
    forall (args : list value) (w : world),
      let r := h E args w in
      (exists f, fst r = Failed f) /\
      count is_information (new_events w (snd r)) = 0.
Proof.
  intros E c h Hin Hclip args w. cbv zeta. simpl in Hin.
  destruct Hin as [Heq | [Heq | [Heq | [Heq | [Heq | [Heq | []]]]]]];
    inversion Heq; subst; clear Heq;
    unfold handle_MDB_COPY_CONNECTION_STRING, handle_MDB_COPY_DATABASE_NAME,
      handle_MDB_COPY_COLLECTION_NAME, handle_MDB_COPY_SCHEMA_FIELD_NAME,
      handle_MDB_COPY_DOCUMENT_CONTENTS_FROM_TREE_VIEW,
      handle_MDB_GENERATE_OBJECTID_TO_CLIPBOARD;
    destruct args as [|[] rest]; run;
    try (destruct (settle E w (ItemMethod _ _)) as [v|f0]; simpl);
    try match goal with
        | |- context [settle E ?w' (ClipboardWriteText ?text)] =>
            destruct (Hclip w' text) as [f Hf]; rewrite Hf; simpl
        end;
    (split; [eexists; reflexivity|]);
    first [ erewrite new_events_app by (simpl; flat; reflexivity)
          | unfold new_events; rewrite drop_all ];
    reflexivity.
Qed.

Lemma copy_command_silent_when_clipboard_rejects_witness :
  count is_information
    (new_events idle_world
       (snd (handle_MDB_GENERATE_OBJECTID_TO_CLIPBOARD env_clipboard_broken
               [] idle_world))) = 0.
Proof.
  apply (copy_command_silent_when_clipboard_rejects env_clipboard_broken
           MDB_GENERATE_OBJECTID_TO_CLIPBOARD handle_MDB_GENERATE_OBJECTID_TO_CLIPBOARD
           ltac:(simpl; auto 10)).
  intros w text. eexists. reflexivity.
Defined.

(** ** Insert object id *)

(** X8.  Without an active editor "insert object id" shows "No active editor
    to insert to." and resolves to [false] without editing.  With one it
    awaits the edit and, when the edit resolves, resolves to [true] whatever
    the edit resolved to; when the edit rejects it fails with that fault. *)
Theorem insert_objectid_needs_editor :
  forall E (args : list value) (w : world),
    let look := External "vscode.window.activeTextEditor" [] in
    let edit := External "editor.edit" [] in
    let factory := External "createIdFactory" [] in
    let editing := emit (Called factory) (emit (Called look) w) in
    let r := handle_MDB_INSERT_OBJECTID_TO_EDITOR E args w in
    if truthy (answer E w look) then
      new_events w (snd r)
      = [ Called look; Called factory; Called edit;
          Settled edit (settle E editing edit) ] /\
      fst r = match settle E editing edit with
              | Resolved _ => Resolved (VBool true)
              | Failed f => Failed f
              end
    else
      new_events w (snd r)
      = [ Called look; Called (ShowInformationMessage "No active editor to insert to.") ] /\
      fst r = Resolved (VBool false).
Proof.
  intros E args w. cbv zeta. unfold handle_MDB_INSERT_OBJECTID_TO_EDITOR. run.
  destruct (truthy (answer E w _)); simpl.
  - destruct (settle E _ _); simpl; (split; [|reflexivity]);
      apply new_events_app; simpl; flat; reflexivity.
  - split; [|reflexivity]. apply new_events_app; simpl; flat; reflexivity.
Qed.

(** ** Namespaces *)

(** X9.  Splitting a namespace gives the text before its first dot, which
    has no dot itself, and, when the namespace has a dot, everything after
    that dot; the pieces put together again give the namespace. *)
Theorem split_namespace_at_first_dot :
  forall s : string,
    has_dot (fst (split_namespace s)) = false /\
    match snd (split_namespace s) with
    | Some collectionName =>
        has_dot s = true /\ s = fst (split_namespace s) +:+ "." +:+ collectionName
    | None => has_dot s = false /\ s = fst (split_namespace s)
    end.
Proof.
  induction s as [|c s [IHdot IHrest]]; simpl.
  - auto.
  - destruct (Ascii.eqb_spec c "."%char) as [->|Hc]; simpl.
    + auto.
    + apply Ascii.eqb_neq in Hc. rewrite Hc. simpl. split; [exact IHdot|].
      destruct (snd (split_namespace s)) as [collectionName|];
        destruct IHrest as [Hdot Heq]; split; try exact Hdot;
        rewrite Heq at 1; reflexivity.
Qed.

(** X10.  A database name without dot and a collection name, joined by a dot
    as "view collection documents" joins them, split into just these two,
    also when the collection name has dots. *)
Theorem split_namespace_of_joined :
  forall databaseName collectionName : string,
    has_dot databaseName = false ->
    split_namespace (databaseName +:+ "." +:+ collectionName)
    = (databaseName, Some collectionName).
Proof.
  induction databaseName as [|c db IH]; intros collectionName Hdot; simpl in *.
  - reflexivity.
  - apply orb_false_iff in Hdot. destruct Hdot as [Hc Hdb].
    rewrite Hc, (IH collectionName Hdb). reflexivity.
Qed.

Lemma split_namespace_of_joined_witness :
  split_namespace ("shop" +:+ "." +:+ "archive.2024") = ("shop", Some "archive.2024").
Proof. apply split_namespace_of_joined. reflexivity. Defined.

(** X11.  "Clone document" first fetches the document's contents and then
    asks for a playground with the contents, the database name and the whole
    collection name of the document's namespace.  A document without
    namespace makes it fail with a [TypeError], after the contents were
    fetched. *)
Theorem clone_document_passes_namespace_pieces :
  forall E (t : TreeItem) (rest : list value) (w : world) (contents : value),
    let fetch := ItemMethod (ref t) "getJSStringDocumentContents" in
    let fetched := emit (Settled fetch (Resolved contents)) (emit (Called fetch) w) in
    let r := handle_MDB_CLONE_DOCUMENT_FROM_TREE_VIEW E (VItem t :: rest) w in
    settle E w fetch = Resolved contents ->
    (forall databaseName collectionName,
       has_dot databaseName = false ->
       prop_value t "namespace" = VStr (databaseName +:+ "." +:+ collectionName) ->
       let create := External "playgroundController.createPlaygroundForCloneDocument"
                       [contents; VStr databaseName; VStr collectionName] in
       fst r = settle E fetched create /\
       new_events w (snd r)
       = [ Called fetch; Settled fetch (Resolved contents);
           Called create; Settled create (settle E fetched create) ]) /\
    (prop_value t "namespace" = VUndefined ->
     fst r = Failed (TypeError "split") /\
     new_events w (snd r) = [ Called fetch; Settled fetch (Resolved contents) ]).
Proof.
  intros E t rest w contents. cbv zeta. intros Hfetch.
  unfold handle_MDB_CLONE_DOCUMENT_FROM_TREE_VIEW. run. rewrite Hfetch. simpl.
  split.
  - intros databaseName collectionName Hdot Hns. rewrite Hns.
    rewrite (split_namespace_of_joined _ collectionName Hdot). simpl.
    split; [reflexivity|]. apply new_events_app; simpl; flat; reflexivity.
  - intros Hns. rewrite Hns. simpl.
    split; [reflexivity|]. apply new_events_app; simpl; flat; reflexivity.
Qed.

Lemma clone_document_passes_namespace_pieces_witness :
  new_events idle_world
    (snd (handle_MDB_CLONE_DOCUMENT_FROM_TREE_VIEW env_success
            [VItem sample_document] idle_world))
  = [ Called (ItemMethod 11 "getJSStringDocumentContents");
      Settled (ItemMethod 11 "getJSStringDocumentContents") (Resolved (VBool true));
      Called (External "playgroundController.createPlaygroundForCloneDocument"
                [VBool true; VStr "shop"; VStr "archive.2024"]);
      Settled (External "playgroundController.createPlaygroundForCloneDocument"
                 [VBool true; VStr "shop"; VStr "archive.2024"])
        (Resolved (VBool true)) ].
Proof.
  apply (clone_document_passes_namespace_pieces env_success sample_document []
           idle_world (VBool true) eq_refl).
  - reflexivity.
  - reflexivity.
Defined.

(** ** Calls a computation never makes *)

Section Appends.

Context (E : env) (p : event -> bool).

Lemma appends_ret {A} (a : A) : appends_without p (ret a).
Proof. intros w. exists []. simpl. rewrite app_nil_r. auto. Qed.

Lemma appends_throw {A} (f : fault) : appends_without p (@throw A f).
Proof. intros w. exists []. simpl. rewrite app_nil_r. auto. Qed.

Lemma appends_bind {A B} (m : world -> outcome A * world)
    (k : A -> world -> outcome B * world) :
  appends_without p m -> (forall a, appends_without p (k a)) ->
  appends_without p (bind m k).
Proof.
  intros Hm Hk w. unfold bind.
  destruct (Hm w) as (evs1 & Hlog1 & Hc1).
  destruct (m w) as [[a|f] w1]; simpl in *.
  - destruct (Hk a w1) as (evs2 & Hlog2 & Hc2).
    exists (evs1 ++ evs2). rewrite Hlog2, Hlog1, app_assoc, count_app.
    split; [reflexivity | lia].
  - exists evs1. auto.
Qed.

Lemma appends_call (o : op) :
  p (Called o) = false -> appends_without p (call E o).
Proof.
  intros Hp w. exists [Called o]. unfold call. cbn [fst snd count].
  rewrite log_effect, log_emit, Hp. auto.
Qed.

Lemma appends_await (o : op) :
  p (Called o) = false -> (forall r, p (Settled o r) = false) ->
  appends_without p (await E o).
Proof.
  intros Hp Hs w. exists [Called o; Settled o (settles E o w)].
  unfold await. cbn [fst snd count].
  rewrite log_emit, log_effect, log_emit, Hp, Hs, <- app_assoc. auto.
Qed.

Lemma appends_get_prop (v : value) (name : string) :
  appends_without p (get_prop v name).
Proof. destruct v; simpl; auto using @appends_ret, @appends_throw. Qed.

Lemma appends_with_item {A} (v : value) (name : string)
    (k : TreeItem -> world -> outcome A * world) :
  (forall t, appends_without p (k t)) -> appends_without p (with_item v name k).
Proof. intros Hk. destruct v; simpl; auto using @appends_throw. Qed.

Lemma appends_if {A} (b : bool) (m1 m2 : world -> outcome A * world) :
  appends_without p m1 -> appends_without p m2 ->
  appends_without p (if b then m1 else m2).
Proof. destruct b; auto. Qed.

End Appends.

Create HintDb appends.
#[local] Hint Resolve appends_ret appends_throw appends_get_prop : appends.
#[local] Hint Extern 1 (appends_without _ (bind _ _)) =>
  apply appends_bind; [|intros] : appends.
#[local] Hint Extern 1 (appends_without _ (call _ _)) =>
  apply appends_call; reflexivity : appends.
#[local] Hint Extern 1 (appends_without _ (await _ _)) =>
  apply appends_await; [reflexivity | intros; reflexivity] : appends.
#[local] Hint Extern 1 (appends_without _ (with_item _ _ _)) =>
  apply appends_with_item; intros : appends.
#[local] Hint Extern 1 (appends_without _ (if _ then _ else _)) =>
  apply appends_if : appends.
#[local] Hint Extern 2 (appends_without _ (match ?x with _ => _ end)) =>
  destruct x : appends.

Ltac prove_appends :=
  lazymatch goal with
  | |- appends_without _ ?m => let h := head_of m in try unfold h
  end;
  unfold call_method, await_method, resetCache, await_resetCache;
  solve [auto 30 with appends].

(** Every binding is a wrapper around a handler that makes no call satisfying
    [p], unless its command is listed. *)
Ltac classify_bindings :=
  unfold registerCommands, registerEditorCommands, registerTreeViewCommands,
    registerCommand; simpl;
  repeat (constructor;
    [ first
        [ right; eexists; split; [reflexivity|]; intros args; prove_appends
        | left; simpl; repeat first [left; reflexivity | right] ] |]);
  constructor.

Lemma refresh_callers E :
  Forall (fun b => In (fst b) commands_refreshing_explorer \/
                   exists inner,
                     snd b = commandHandlerWithTelemetry E (fst b) inner /\
                     forall args, appends_without is_refresh (inner args))
         (registerCommands E []).
Proof. classify_bindings. Qed.

Lemma resetCache_callers E :
  Forall (fun b => In (fst b) commands_resetting_cache \/
                   exists inner,
                     snd b = commandHandlerWithTelemetry E (fst b) inner /\
                     forall args, appends_without is_reset_cache (inner args))
         (registerCommands E []).
Proof. classify_bindings. Qed.

Lemma advisory_callers E :
  Forall (fun b => In (fst b) commands_showing_advisory \/
                   exists inner,
                     snd b = commandHandlerWithTelemetry E (fst b) inner /\
                     forall args, appends_without is_advisory (inner args))
         (registerCommands E []).
Proof. classify_bindings. Qed.

Lemma wrapper_appends_without E p command (inner : handler) hostArgs w :
  p (Called (TrackCommandRun command)) = false ->
  (forall args, appends_without p (inner args)) ->
  count p (new_events w (snd (commandHandlerWithTelemetry E command inner hostArgs w)))
  = 0.
Proof.
  intros Hp Hinner. rewrite commandHandlerWithTelemetry_run.
  destruct (Hinner [arg0 hostArgs] (emit (Called (TrackCommandRun command)) w))
    as (evs & Hlog & Hcount).
  rewrite log_emit, <- app_assoc in Hlog.
  rewrite (new_events_app _ _ _ Hlog). simpl. rewrite Hp, Hcount. reflexivity.
Qed.

(** X12.  Only the six refresh commands and the three drop and delete
    commands ever call the explorer's [refresh()]: no other registered
    command does, on any arguments, in any world. *)
Theorem only_listed_commands_refresh_explorer :
  forall E command bound,
    In (command, bound) (registerCommands E []) ->
    ~ In command commands_refreshing_explorer ->
    forall (hostArgs : list value) (w : world),
      count is_refresh (new_events w (snd (bound hostArgs w))) = 0.
Proof.
  intros E command bound Hin Hnot hostArgs w.
  pose proof (refresh_callers E) as Hall. rewrite List.Forall_forall in Hall.
  destruct (Hall _ Hin) as [Hlisted | (inner & Hbound & Hinner)]; simpl in *.
  - contradiction.
  - rewrite Hbound. apply wrapper_appends_without; [reflexivity | exact Hinner].
Qed.

Lemma only_listed_commands_refresh_explorer_witness :
  count is_refresh
    (new_events idle_world
       (snd (executeCommand (registerCommands env_success []) MDB_COPY_DATABASE_NAME
               [VItem sample_database] idle_world))) = 0.
Proof.
  apply (only_listed_commands_refresh_explorer env_success MDB_COPY_DATABASE_NAME
           (commandHandlerWithTelemetry env_success MDB_COPY_DATABASE_NAME
              (handle_MDB_COPY_DATABASE_NAME env_success))
           ltac:(find_binding)).
  simpl. intuition discriminate.
Defined.

(** X13.  Only the six refresh commands ever call [resetCache()]: no other
    registered command does, on any arguments, in any world. *)
Theorem only_refresh_commands_reset_cache :
  forall E command bound,
    In (command, bound) (registerCommands E []) ->
    ~ In command commands_resetting_cache ->
    forall (hostArgs : list value) (w : world),
      count is_reset_cache (new_events w (snd (bound hostArgs w))) = 0.
Proof.
  intros E command bound Hin Hnot hostArgs w.
  pose proof (resetCache_callers E) as Hall. rewrite List.Forall_forall in Hall.
  destruct (Hall _ Hin) as [Hlisted | (inner & Hbound & Hinner)]; simpl in *.
  - contradiction.
  - rewrite Hbound. apply wrapper_appends_without; [reflexivity | exact Hinner].
Qed.

Lemma only_refresh_commands_reset_cache_witness :
  count is_reset_cache
    (new_events idle_world
       (snd (executeCommand (registerCommands env_success []) MDB_DROP_DATABASE
               [VItem sample_database] idle_world))) = 0.
Proof.
  apply (only_refresh_commands_reset_cache env_success MDB_DROP_DATABASE
           (commandHandlerWithTelemetry env_success MDB_DROP_DATABASE
              (handle_MDB_DROP_DATABASE env_success))
           ltac:(find_binding)).
  simpl. intuition discriminate.
Defined.

(** X18.  Only "add database" and "add collection" ever show an error
    message: no other registered command does, whatever its arguments and
    however it ends. *)
Theorem only_add_commands_show_advisory :
  forall E command bound,
    In (command, bound) (registerCommands E []) ->
    ~ In command commands_showing_advisory ->
    forall (hostArgs : list value) (w : world),
      count is_advisory (new_events w (snd (bound hostArgs w))) = 0.
Proof.
  intros E command bound Hin Hnot hostArgs w.
  pose proof (advisory_callers E) as Hall. rewrite List.Forall_forall in Hall.
  destruct (Hall _ Hin) as [Hlisted | (inner & Hbound & Hinner)]; simpl in *.
  - contradiction.
  - rewrite Hbound. apply wrapper_appends_without; [reflexivity | exact Hinner].
Qed.

Lemma only_add_commands_show_advisory_witness :
  count is_advisory
    (new_events idle_world
       (snd (executeCommand (registerCommands env_success []) MDB_DROP_DATABASE
               [] idle_world))) = 0.
Proof.
  apply (only_add_commands_show_advisory env_success MDB_DROP_DATABASE
           (commandHandlerWithTelemetry env_success MDB_DROP_DATABASE
              (handle_MDB_DROP_DATABASE env_success))
           ltac:(find_binding)).
  simpl. intuition discriminate.
Defined.

(** ** Activation *)

Lemma registerCommands_appends E (subs : subscriptions) :
  registerCommands E subs = subs ++ registerCommands E [].
Proof.
  cbv beta zeta delta [registerCommands registerEditorCommands
                        registerTreeViewCommands registerCommand].
  rewrite <- !app_assoc. reflexivity.
Qed.

(** X14.  When loading the saved connections rejects, [activate] fails with
    that fault right there: the language server is not started, no command
    is registered, the first-run gate is not run and the storage is as
    before.  The same holds, one step later, when starting the language
    server rejects. *)
Theorem activate_aborts_when_startup_rejects :
  forall E key (subs : subscriptions) (w : world) (f : fault),
    let load := External "connectionController.loadSavedConnections" [] in
    let start := External "languageServerController.startLanguageServer" [] in
    let views :=
      [ Called (External "explorerController.activateConnectionsTreeView" []);
        Called (External "helpExplorer.activateHelpTreeView" []);
        Called (External "playgroundsExplorer.activatePlaygroundsTreeView" []);
        Called (External "telemetryService.activateSegmentAnalytics" []) ] in
    let r := activate E key subs w in
    ((forall w', settle E w' load = Failed f) ->
     fst r = Failed f /\
     new_events w (snd r) = views ++ [Called load; Settled load (Failed f)] /\
     storage (snd r) = storage w) /\
    ((forall w', exists v, settle E w' load = Resolved v) ->
     (forall w', settle E w' start = Failed f) ->
     fst r = Failed f /\
     (exists v, new_events w (snd r)
                = views ++ [ Called load; Settled load (Resolved v);
                             Called start; Settled start (Failed f) ]) /\
     storage (snd r) = storage w).
Proof.
  intros E key subs w f. cbv zeta. split.
  - intros Hload. unfold activate, startup. run. rewrite Hload. simpl.
    split_and!; try reflexivity. apply new_events_app; simpl; flat; reflexivity.
  - intros Hload Hstart. unfold activate, startup. run.
    match goal with
    | |- context [settle E ?w' (External "connectionController.loadSavedConnections" [])] =>
        destruct (Hload w') as [v Hv]; rewrite Hv; simpl
    end.
    rewrite Hstart. simpl.
    split_and!; try reflexivity. exists v.
    apply new_events_app; simpl; flat; reflexivity.
Qed.

Lemma activate_aborts_when_startup_rejects_witness :
  fst (activate env_load_fails "shown" [] idle_world) = Failed (Rejection "load") /\
  storage (snd (activate env_load_fails "shown" [] idle_world)) = ∅.
Proof.
  destruct (activate_aborts_when_startup_rejects env_load_fails "shown" []
              idle_world (Rejection "load")) as [Hload _].
  destruct (Hload (fun _ => eq_refl)) as (H1 & _ & H3).
  split; [exact H1 | exact H3].
Defined.

(** X15.  When no promise rejects, [activate] resolves to the subscriptions
    it was given followed by the 57 bindings of [registerCommands]: what was
    subscribed before is kept, in order. *)
Theorem activate_appends_the_registry :
  forall E key (subs : subscriptions) (w : world),
    never_rejects E ->
    fst (activate E key subs w) = Resolved (subs ++ registerCommands E []) /\
    length (subs ++ registerCommands E []) = length subs + 57.
Proof.
  intros E key subs w Hnr. split.
  - rewrite <- registerCommands_appends.
    unfold activate, startup, showOverviewPageIfRecentlyInstalled. run.
    resolve_with Hnr.
    repeat match goal with
      | |- context [if ?b then _ else _] => destruct b; simpl
      end; reflexivity.
  - rewrite length_app. reflexivity.
Qed.

Lemma activate_appends_the_registry_witness :
  fst (activate env_fresh "shown" [] idle_world)
  = Resolved ([] ++ registerCommands env_fresh []).
Proof.
  apply (activate_appends_the_registry env_fresh "shown" [] idle_world).
  intros w o. exists (VBool true). reflexivity.
Defined.

(** ** The whole life of the extension *)

Section Life.

Context (E : env) (key : string).

Lemma run_step_storage s w :
  storage (run_step E key s w) = storage w \/
  storage (run_step E key s w) = <[key := VBool true]> (storage w).
Proof.
  destruct s as [|command hostArgs|]; simpl.
  - destruct (startup_quiet E w) as (evs0 & _ & _ & Hsto0).
    destruct (startup E w) as [[v|f] reached] eqn:Hs; simpl in *.
    + rewrite (activate_reached E key [] w v reached Hs), <- Hsto0.
      destruct (shown key reached) eqn:Hshown.
      * rewrite (gate_shown E key reached Hshown). left. reflexivity.
      * right. apply (gate_not_shown E key reached Hshown).
    + rewrite (activate_aborted E key [] w f reached Hs). left. exact Hsto0.
  - destruct (executeCommand_gate E key command hostArgs w) as (evs & _ & _ & _ & Hsto).
    left. exact Hsto.
  - destruct (dispose_quiet E w) as (evs & _ & _ & Hsto). left. exact Hsto.
Qed.

Lemma registry_find command :
  exists bound,
    List.find (fun b => bool_decide (fst b = command)) (registerCommands E [])
    = Some (command, bound) /\
    In (command, bound) (registerCommands E []).
Proof. destruct command; eexists; (split; [reflexivity | find_binding]). Qed.

Lemma run_step_tracks command s w :
  exists evs,
    log (run_step E key s w) = log w ++ evs /\
    count (is_track command) evs = executions command [s].
Proof.
  destruct s as [|c hostArgs|]; simpl.
  - assert (H : appends_without (is_track command) (activate E key [])).
    { unfold activate, startup, showOverviewPageIfRecentlyInstalled.
      auto 40 with appends. }
    apply H.
  - destruct (registry_find c) as (bound & Hfind & Hin).
    unfold executeCommand. rewrite Hfind.
    pose proof (registerCommands_wrapped E) as Hall.
    rewrite List.Forall_forall in Hall.
    destruct (Hall _ Hin) as (inner & Hbound & Hquiet). simpl in Hbound.
    rewrite Hbound, commandHandlerWithTelemetry_run.
    destruct (Hquiet [arg0 hostArgs] (emit (Called (TrackCommandRun c)) w))
      as (evs & Hlog & Hcount & _).
    exists (Called (TrackCommandRun c) :: evs).
    rewrite Hlog, log_emit, <- app_assoc. simpl.
    rewrite (count_unreserved _ evs (is_track_reserved command) Hcount).
    split; reflexivity.
  - assert (H : appends_without (is_track command) (dispose E)).
    { unfold dispose, deactivate. auto 40 with appends. }
    apply H.
Qed.

End Life.

(** X16.  Over the whole life of the extension the controller writes no
    storage key but the first-run flag, and that one only to [true]: every
    other key reads as before, and the flag reads as before or as [true]. *)
Theorem session_writes_only_the_flag :
  forall E key (steps : list step) (w : world),
    let w' := session E key steps w in
    (forall k, k <> key -> storage w' !! k = storage w !! k) /\
    (storage w' !! key = storage w !! key \/ storage w' !! key = Some (VBool true)).
Proof.
  intros E key steps. induction steps as [|s steps IH]; intros w; simpl.
  - auto.
  - destruct (IH (run_step E key s w)) as [Hother Hflag].
    destruct (run_step_storage E key s w) as [Hsto | Hsto]; rewrite Hsto in *.
    + auto.
    + split.
      * intros k Hk. rewrite (Hother k Hk). apply lookup_insert_ne. congruence.
      * right. destruct Hflag as [Hflag | Hflag]; rewrite Hflag; [|reflexivity].
        apply lookup_insert_eq.
Qed.

Section Dispatch.

Context (E : env) (key : string) (command : EXTENSION_COMMANDS).

Lemma is_request_reserved e : is_request command e = true -> is_reserved e = true.
Proof. destruct e as [[]|]; simpl; auto. Qed.

(** One run by the host: the telemetry call, then nothing reserved. *)
Lemma executeCommand_events c hostArgs w :
  exists evs,
    log (snd (executeCommand (registerCommands E []) c hostArgs w))
    = log w ++ Called (TrackCommandRun c) :: evs /\
    count is_reserved evs = 0.
Proof.
  destruct (registry_find E c) as (bound & Hfind & Hin).
  unfold executeCommand. rewrite Hfind.
  pose proof (registerCommands_wrapped E) as Hall.
  rewrite List.Forall_forall in Hall.
  destruct (Hall _ Hin) as (inner & Hbound & Hquiet). simpl in Hbound.
  rewrite Hbound, commandHandlerWithTelemetry_run.
  destruct (Hquiet [arg0 hostArgs] (emit (Called (TrackCommandRun c)) w))
    as (evs & Hlog & Hcount & _).
  exists evs. rewrite Hlog, log_emit, <- app_assoc. auto.
Qed.

(** Running what was asked for reports each run and asks for nothing more. *)
Lemma dispatch_requests asked : forall w,
  exists evs,
    log (dispatch E (requests asked) w) = log w ++ evs /\
    count (is_track command) evs = count (is_request command) asked /\
    count (is_request command) evs = 0.
Proof.
  induction asked as [|e asked IH]; intros w.
  - exists []. simpl. rewrite app_nil_r. auto.
  - assert (Hskip : requests (e :: asked) = requests asked ->
                    is_request command e = false ->
                    exists evs,
                      log (dispatch E (requests (e :: asked)) w) = log w ++ evs /\
                      count (is_track command) evs
                      = count (is_request command) (e :: asked) /\
                      count (is_request command) evs = 0).
    { intros Hreq He. rewrite Hreq. simpl. rewrite He. apply IH. }
    destruct e as [o|o r]; [|apply Hskip; reflexivity].
    destruct o; try (apply Hskip; reflexivity).
    simpl.
    destruct (executeCommand_events command0 [] w) as (evs1 & Hlog1 & Hcount1).
    destruct (IH (snd (executeCommand (registerCommands E []) command0 [] w)))
      as (evs2 & Hlog2 & Htrack2 & Hreq2).
    exists ((Called (TrackCommandRun command0) :: evs1) ++ evs2).
    unfold dispatch in *. rewrite Hlog2, Hlog1, <- app_assoc.
    split; [reflexivity|].
    rewrite !count_app. simpl. rewrite Htrack2, Hreq2.
    rewrite (count_unreserved _ evs1 (is_track_reserved command) Hcount1).
    rewrite (count_unreserved _ evs1 is_request_reserved Hcount1).
    split; lia.
Qed.

Lemma run_step_dispatching_tracks s w :
  exists evs,
    log (run_step_dispatching E key s w) = log w ++ evs /\
    count (is_track command) evs
    = executions command [s] + count (is_request command) evs.
Proof.
  unfold run_step_dispatching.
  destruct (run_step_tracks E key command s w) as (evs1 & Hlog1 & Htrack1).
  rewrite (new_events_app _ _ _ Hlog1).
  destruct (dispatch_requests evs1 (run_step E key s w))
    as (evs2 & Hlog2 & Htrack2 & Hreq2).
  exists (evs1 ++ evs2). rewrite Hlog2, Hlog1, app_assoc, !count_app.
  split; [reflexivity | lia].
Qed.

End Dispatch.

(** X17.  Over the whole life of the extension, the host running every
    command the controller asks it for, [trackCommandRun(command)] is called
    once per run of [command]: as often as the host ran it of its own accord
    plus as often as the controller asked for it (which only the first-run
    gate does). *)
Theorem session_tracks_each_run_once :
  forall E key command (steps : list step) (w : world),
    let w' := dispatching_session E key steps w in
    count (is_track command) (new_events w w')
    = executions command steps + count (is_request command) (new_events w w').
Proof.
  intros E key command steps w. cbv zeta.
  assert (H : exists evs,
                log (dispatching_session E key steps w) = log w ++ evs /\
                count (is_track command) evs
                = executions command steps + count (is_request command) evs).
  { revert w. induction steps as [|s steps IH]; intros w; simpl.
    - exists []. rewrite app_nil_r. auto.
    - destruct (run_step_dispatching_tracks E key command s w) as (evs1 & Hlog1 & Hc1).
      destruct (IH (run_step_dispatching E key s w)) as (evs2 & Hlog2 & Hc2).
      exists (evs1 ++ evs2). unfold dispatching_session in *.
      rewrite Hlog2, Hlog1, app_assoc, !count_app, Hc1, Hc2.
      split; [reflexivity|]. destruct s; simpl; lia. }
  destruct H as (evs & Hlog & Hcount).
  rewrite (new_events_app _ _ _ Hlog). exact Hcount.
Qed.

Example fresh_install_tracks_the_overview_command :
  filter (fun e => bool_decide (is_reserved e = true))
    (log (dispatching_session env_fresh "shown" [Activate; Activate] idle_world))
  = [ Called (ExecuteCommand MDB_OPEN_OVERVIEW_PAGE);
      Called (StorageUpdate "shown" (VBool true));
      Called (TrackCommandRun MDB_OPEN_OVERVIEW_PAGE) ].
Proof. reflexivity. Qed.

(** ** Refresh document list when clearing the cache rejects *)

(** X19.  When the promise of the awaited [resetCache()] rejects, "refresh
    document list" fails with that fault and does not refresh the explorer. *)
Theorem refresh_document_list_fails_when_reset_rejects :
  forall E (t : TreeItem) (rest : list value) (w : world) (f : fault),
    let reset := ResetCache (ref t) in
    let r := handle_MDB_REFRESH_DOCUMENT_LIST E (VItem t :: rest) w in
    settle E w reset = Failed f ->
    fst r = Failed f /\
    new_events w (snd r) = [Called reset; Settled reset (Failed f)] /\
    count is_refresh (new_events w (snd r)) = 0.
Proof.
  intros E t rest w f. cbv zeta. intros Hreset.
  unfold handle_MDB_REFRESH_DOCUMENT_LIST. run. rewrite Hreset. simpl.
  erewrite new_events_app by (simpl; flat; reflexivity).
  split_and!; reflexivity.
Qed.

Lemma refresh_document_list_fails_when_reset_rejects_witness :
  fst (handle_MDB_REFRESH_DOCUMENT_LIST env_rejecting [VItem sample_database] idle_world)
  = Failed (Rejection "unreachable").
Proof.
  apply (refresh_document_list_fails_when_reset_rejects env_rejecting
           sample_database [] idle_world (Rejection "unreachable")).
  reflexivity.
Defined.
